(** * Roots fulfillment savings calculator: the cost engine

    A shallow embedding of [calculateSavings]
    (components/calculator-results.tsx) and of the assumptions table
    (lib/assumptions.ts), with the properties the specification states
    about them.

    JavaScript's [number] is reached through the interface [Number]: the
    engine is written once, against that interface, and is run on two
    carriers.
    - [Q], exact rationals: the arithmetic the specification speaks of
      (linear products over the reals).  The order and inequality
      properties are proved here.
    - [float], IEEE 754 binary64 with round-to-nearest-even, which is what
      the JavaScript engine executes.  The documented scenario is replayed
      on it, and every property that is proved for an arbitrary carrier
      holds on it too.

    Doubles overflow to Infinity, turn Infinity - Infinity into NaN,
    underflow and round.  A statement that is proved on [Q] and that
    these would falsify carries the range of volumes
    ([volumeFloor], [volumeCap]) and, for an exact equality, a tolerance
    among its hypotheses, is shown to fail on doubles outside that range
    by evaluation, and is evaluated on doubles over a grid of inputs
    inside it.

    Division is the one operation whose result may not be a finite number
    (IEEE answers a zero divisor with an infinity or a NaN, which [Q] does
    not have), so [div] returns an [outcome] and the engine is written in
    that error monad: that it always returns is then a theorem about its
    zero-guard, not a property of the embedding. *)

From Stdlib Require Import QArith Lqa Lia ZArith String List Bool.
From Stdlib Require Import PrimFloat Uint63.
Import ListNotations.

Set Implicit Arguments.

(** ** Outcome of a computation that may leave the finite numbers *)

Inductive outcome (A : Type) : Type :=
| Returned (a : A)
| DivisionByZero.

Arguments DivisionByZero {A}.

Definition bind {A B : Type} (m : outcome A) (k : A -> outcome B) : outcome B :=
  match m with
  | Returned a => k a
  | DivisionByZero => DivisionByZero
  end.

Definition ret {A : Type} (a : A) : outcome A := Returned a.

Declare Scope js_scope.
Delimit Scope js_scope with js.

Notation "x <- m ;; k" := (bind m (fun x => k))
  (at level 61, m at next level, right associativity) : js_scope.

(** ** The [number] interface

    [lit] reads a decimal literal of the source text.  [div] is the one
    operation that can leave the finite numbers. *)

Class Number (num : Type) : Type := {
  lit : Q -> num;
  add : num -> num -> num;
  sub : num -> num -> num;
  mul : num -> num -> num;
  div : num -> num -> outcome num;
  gt : num -> num -> bool
}.

(** The law the engine's zero-guard relies on: a divisor that has just
    tested greater than zero can be divided by. *)
Class GuardedDivision (num : Type) {N : Number num} : Prop :=
  div_guarded : forall x y : num,
    gt y (lit 0) = true -> exists q : num, div x y = Returned q.

Arguments GuardedDivision num {N}.

Notation "x + y" := (add x y) : js_scope.
Notation "x - y" := (sub x y) : js_scope.
Notation "x * y" := (mul x y) : js_scope.
Notation "x / y" := (div x y) : js_scope.
Notation "x >? y" := (gt x y) (at level 70, no associativity) : js_scope.

(** *** Exact rationals *)

Definition Qgt_bool (x y : Q) : bool := negb (Qle_bool x y).

Definition Qdiv_checked (x y : Q) : outcome Q :=
  if Qeq_bool y 0 then DivisionByZero else Returned (x / y)%Q.

#[export] Instance Number_Q : Number Q := {|
  lit := fun q => q;
  add := Qplus;
  sub := Qminus;
  mul := Qmult;
  div := Qdiv_checked;
  gt := Qgt_bool
|}.

(** *** IEEE 754 binary64

    A literal [p/q] with [p] and [q] below [2^53] is the correctly rounded
    quotient of two exactly represented integers, which is the double the
    JavaScript parser produces for that decimal. *)

Definition float_of_Z (z : Z) : float :=
  match z with
  | Zneg _ => PrimFloat.opp (PrimFloat.of_uint63 (Uint63.of_Z (Z.abs z)))
  | _ => PrimFloat.of_uint63 (Uint63.of_Z z)
  end.

Definition float_lit (q : Q) : float :=
  PrimFloat.div (float_of_Z (Qnum q)) (float_of_Z (Zpos (Qden q))).

Definition float_div (x y : float) : outcome float :=
  Returned (PrimFloat.div x y).

Definition float_gt (x y : float) : bool := PrimFloat.ltb y x.

#[export] Instance Number_float : Number float := {|
  lit := float_lit;
  add := PrimFloat.add;
  sub := PrimFloat.sub;
  mul := PrimFloat.mul;
  div := float_div;
  gt := float_gt
|}.

(** ** lib/assumptions.ts *)

Module StorageAssumptions.
Record t (num : Type) : Type := mk {
  costPerSqm : num;
  merchantOverheadMultiplier : num
}.
End StorageAssumptions.

Module HandlingInAssumptions.
Record t (num : Type) : Type := mk {
  laborCostPerMinute : num;
  merchantTimePerItem : num;
  rootsTimePerItem : num;
  rootsEfficiencyMultiplier : num
}.
End HandlingInAssumptions.

Module HandlingOutAssumptions.
Record t (num : Type) : Type := mk {
  laborCostPerMinute : num;
  merchantTimePerOrder : num;
  rootsTimePerOrder : num;
  rootsEfficiencyMultiplier : num
}.
End HandlingOutAssumptions.

Module DeliveryAssumptions.
Record t (num : Type) : Type := mk {
  deliveryAmman24hrsMerchant : num;
  deliveryAmman24hrsRoots : num
}.
End DeliveryAssumptions.

Module OverheadAssumptions.
Record t (num : Type) : Type := mk {
  merchantOverheadRate : num;
  rootsOverhead : num
}.
End OverheadAssumptions.

Module Assumptions.
Record t (num : Type) : Type := mk {
  storage : StorageAssumptions.t num;
  handlingIn : HandlingInAssumptions.t num;
  handlingOut : HandlingOutAssumptions.t num;
  delivery : DeliveryAssumptions.t num;
  overhead : OverheadAssumptions.t num
}.
End Assumptions.

(** ** components/calculator-results.tsx: the data *)

Module MerchantInput.
Record t (num : Type) : Type := mk {
  warehouseSize : num;
  ordersPerMonth : num;
  averageItemsPerOrder : num
}.
End MerchantInput.

Inductive PackageType : Type :=
| fulfillment
| store_pack
| sort_pack.

Module ServiceType.
Inductive t : Type :=
| storage
| handlingIn
| handlingOut
| delivery.

Definition eqb (a b : t) : bool :=
  match a, b with
  | storage, storage => true
  | handlingIn, handlingIn => true
  | handlingOut, handlingOut => true
  | delivery, delivery => true
  | _, _ => false
  end.
End ServiceType.

Module PackageConfig.
Record t : Type := mk {
  label : string;
  description : string;
  services : list ServiceType.t
}.
End PackageConfig.

Definition PACKAGE_SERVICES (packageType : PackageType) : PackageConfig.t :=
  match packageType with
  | fulfillment =>
      {| PackageConfig.label := "Fulfillment Package";
         PackageConfig.description := "Complete end-to-end service";
         PackageConfig.services :=
           [ServiceType.storage; ServiceType.handlingIn;
            ServiceType.handlingOut; ServiceType.delivery] |}
  | store_pack =>
      {| PackageConfig.label := "Store & Pack Package";
         PackageConfig.description := "Storage and packaging services";
         PackageConfig.services :=
           [ServiceType.storage; ServiceType.handlingIn;
            ServiceType.handlingOut] |}
  | sort_pack =>
      {| PackageConfig.label := "Sort & Pack Package";
         PackageConfig.description := "Sorting, packaging and delivery";
         PackageConfig.services :=
           [ServiceType.handlingIn; ServiceType.handlingOut;
            ServiceType.delivery] |}
  end.

(** [Array.prototype.includes] on a list of service tags. *)
Definition includes (l : list ServiceType.t) (s : ServiceType.t) : bool :=
  existsb (ServiceType.eqb s) l.

Module Cost.
Record t (num : Type) : Type := mk {
  storage : num;
  handlingIn : num;
  handlingOut : num;
  delivery : num;
  overhead : num;
  total : num
}.

(** The cost line of one service, [cost[service]]. *)
Definition line (num : Type) (c : t num) (s : ServiceType.t) : num :=
  match s with
  | ServiceType.storage => storage c
  | ServiceType.handlingIn => handlingIn c
  | ServiceType.handlingOut => handlingOut c
  | ServiceType.delivery => delivery c
  end.
End Cost.

Module Savings.
Record t (num : Type) : Type := mk {
  monthly : num;
  yearly : num;
  percentage : num
}.
End Savings.

Module CostComparisonResult.
Record t (num : Type) : Type := mk {
  merchantCost : Cost.t num;
  rootsCost : Cost.t num;
  savings : Savings.t num;
  packageConfig : PackageConfig.t
}.
End CostComparisonResult.

(** ** The engine, over any carrier *)

Section Engine.

Context {num : Type} {N : Number num}.

Local Open Scope js_scope.

(** *** lib/assumptions.ts: the table *)

Definition DEFAULT_ASSUMPTIONS : Assumptions.t num :=
  {| Assumptions.storage :=
       {| StorageAssumptions.costPerSqm := lit 12;
          StorageAssumptions.merchantOverheadMultiplier := lit 1.25 |};
     Assumptions.handlingIn :=
       {| HandlingInAssumptions.laborCostPerMinute := lit 0.5;
          HandlingInAssumptions.merchantTimePerItem := lit 2;
          HandlingInAssumptions.rootsTimePerItem := lit 1;
          HandlingInAssumptions.rootsEfficiencyMultiplier := lit 0.85 |};
     Assumptions.handlingOut :=
       {| HandlingOutAssumptions.laborCostPerMinute := lit 0.5;
          HandlingOutAssumptions.merchantTimePerOrder := lit 5;
          HandlingOutAssumptions.rootsTimePerOrder := lit 3;
          HandlingOutAssumptions.rootsEfficiencyMultiplier := lit 0.85 |};
     Assumptions.delivery :=
       {| DeliveryAssumptions.deliveryAmman24hrsMerchant := lit 2.2;
          DeliveryAssumptions.deliveryAmman24hrsRoots := lit 2.0 |};
     Assumptions.overhead :=
       {| OverheadAssumptions.merchantOverheadRate := lit 0.2;
          OverheadAssumptions.rootsOverhead := lit 0 |} |}.

Definition getAssumptions (_ : unit) : Assumptions.t num :=
  DEFAULT_ASSUMPTIONS.

(** *** components/calculator-results.tsx: [calculateSavings]

    The eight [let] variables start at 0; each [if] block rebinds the two
    it assigns and leaves them as they were when the service is absent. *)

Definition calculateSavings (input : MerchantInput.t num)
    (packageType : PackageType) : outcome (CostComparisonResult.t num) :=
  let warehouseSize := MerchantInput.warehouseSize input in
  let ordersPerMonth := MerchantInput.ordersPerMonth input in
  let averageItemsPerOrder := MerchantInput.averageItemsPerOrder input in
  let packageConfig := PACKAGE_SERVICES packageType in
  let assumptions := getAssumptions tt in
  let totalItems := ordersPerMonth * averageItemsPerOrder in
  let merchantStorage := lit 0 in
  let merchantHandlingIn := lit 0 in
  let merchantHandlingOut := lit 0 in
  let merchantDelivery := lit 0 in
  let rootsStorage := lit 0 in
  let rootsHandlingIn := lit 0 in
  let rootsHandlingOut := lit 0 in
  let rootsDelivery := lit 0 in
  let '(merchantStorage, rootsStorage) :=
    if includes (PackageConfig.services packageConfig) ServiceType.storage then
      (warehouseSize
         * StorageAssumptions.costPerSqm (Assumptions.storage assumptions)
         * StorageAssumptions.merchantOverheadMultiplier (Assumptions.storage assumptions),
       warehouseSize
         * StorageAssumptions.costPerSqm (Assumptions.storage assumptions))
    else (merchantStorage, rootsStorage) in
  let '(merchantHandlingIn, rootsHandlingIn) :=
    if includes (PackageConfig.services packageConfig) ServiceType.handlingIn then
      let merchantHandlingInTime :=
        totalItems
          * HandlingInAssumptions.merchantTimePerItem (Assumptions.handlingIn assumptions) in
      let rootsHandlingInTime :=
        totalItems
          * HandlingInAssumptions.rootsTimePerItem (Assumptions.handlingIn assumptions) in
      (merchantHandlingInTime
         * HandlingInAssumptions.laborCostPerMinute (Assumptions.handlingIn assumptions),
       rootsHandlingInTime
         * HandlingInAssumptions.laborCostPerMinute (Assumptions.handlingIn assumptions)
         * HandlingInAssumptions.rootsEfficiencyMultiplier (Assumptions.handlingIn assumptions))
    else (merchantHandlingIn, rootsHandlingIn) in
  let '(merchantHandlingOut, rootsHandlingOut) :=
    if includes (PackageConfig.services packageConfig) ServiceType.handlingOut then
      let merchantHandlingOutTime :=
        ordersPerMonth
          * HandlingOutAssumptions.merchantTimePerOrder (Assumptions.handlingOut assumptions) in
      let rootsHandlingOutTime :=
        ordersPerMonth
          * HandlingOutAssumptions.rootsTimePerOrder (Assumptions.handlingOut assumptions) in
      (merchantHandlingOutTime
         * HandlingOutAssumptions.laborCostPerMinute (Assumptions.handlingOut assumptions),
       rootsHandlingOutTime
         * HandlingOutAssumptions.laborCostPerMinute (Assumptions.handlingOut assumptions)
         * HandlingOutAssumptions.rootsEfficiencyMultiplier (Assumptions.handlingOut assumptions))
    else (merchantHandlingOut, rootsHandlingOut) in
  let '(merchantDelivery, rootsDelivery) :=
    if includes (PackageConfig.services packageConfig) ServiceType.delivery then
      (ordersPerMonth
         * DeliveryAssumptions.deliveryAmman24hrsMerchant (Assumptions.delivery assumptions),
       ordersPerMonth
         * DeliveryAssumptions.deliveryAmman24hrsRoots (Assumptions.delivery assumptions))
    else (merchantDelivery, rootsDelivery) in
  let merchantOverhead :=
    (merchantStorage + merchantHandlingIn + merchantHandlingOut + merchantDelivery)
      * OverheadAssumptions.merchantOverheadRate (Assumptions.overhead assumptions) in
  let merchantTotal :=
    merchantStorage + merchantHandlingIn + merchantHandlingOut + merchantDelivery
      + merchantOverhead in
  let rootsOverhead :=
    OverheadAssumptions.rootsOverhead (Assumptions.overhead assumptions) in
  let rootsTotal :=
    rootsStorage + rootsHandlingIn + rootsHandlingOut + rootsDelivery
      + rootsOverhead in
  let monthlySavings := merchantTotal - rootsTotal in
  let yearlySavings := monthlySavings * lit 12 in
  savingsPercentage <-
    (if merchantTotal >? lit 0
     then (q <- monthlySavings / merchantTotal ;; ret (q * lit 100))
     else ret (lit 0)) ;;
  ret {| CostComparisonResult.merchantCost :=
           {| Cost.storage := merchantStorage;
              Cost.handlingIn := merchantHandlingIn;
              Cost.handlingOut := merchantHandlingOut;
              Cost.delivery := merchantDelivery;
              Cost.overhead := merchantOverhead;
              Cost.total := merchantTotal |};
         CostComparisonResult.rootsCost :=
           {| Cost.storage := rootsStorage;
              Cost.handlingIn := rootsHandlingIn;
              Cost.handlingOut := rootsHandlingOut;
              Cost.delivery := rootsDelivery;
              Cost.overhead := rootsOverhead;
              Cost.total := rootsTotal |};
         CostComparisonResult.savings :=
           {| Savings.monthly := monthlySavings;
              Savings.yearly := yearlySavings;
              Savings.percentage := savingsPercentage |};
         CostComparisonResult.packageConfig := packageConfig |}.

End Engine.

(** ** The table as module state

    [DEFAULT_ASSUMPTIONS] is an exported object that is not frozen, and
    [getAssumptions] returns that object, not a copy: whoever imports the
    module can assign to its fields, and the engine reads the fields at
    each call.  The state of lib/assumptions.ts is therefore the current
    contents of the object; [loaded] is that state once the module has
    been evaluated, and [calculateSavings] above is the engine in that
    state. *)

Module AssumptionsModule.
Record t (num : Type) : Type := mk {
  DEFAULT_ASSUMPTIONS : Assumptions.t num
}.
End AssumptionsModule.

Section EngineOverModuleState.

Context {num : Type} {N : Number num}.

Local Open Scope js_scope.

Definition loaded : AssumptionsModule.t num :=
  {| AssumptionsModule.DEFAULT_ASSUMPTIONS := DEFAULT_ASSUMPTIONS |}.

Definition getAssumptions_in (m : AssumptionsModule.t num) : Assumptions.t num :=
  AssumptionsModule.DEFAULT_ASSUMPTIONS m.

(** [DEFAULT_ASSUMPTIONS.storage.costPerSqm = value]. *)
Definition assignCostPerSqm (value : num) (m : AssumptionsModule.t num)
    : AssumptionsModule.t num :=
  let table := AssumptionsModule.DEFAULT_ASSUMPTIONS m in
  {| AssumptionsModule.DEFAULT_ASSUMPTIONS :=
       {| Assumptions.storage :=
            {| StorageAssumptions.costPerSqm := value;
               StorageAssumptions.merchantOverheadMultiplier :=
                 StorageAssumptions.merchantOverheadMultiplier
                   (Assumptions.storage table) |};
          Assumptions.handlingIn := Assumptions.handlingIn table;
          Assumptions.handlingOut := Assumptions.handlingOut table;
          Assumptions.delivery := Assumptions.delivery table;
          Assumptions.overhead := Assumptions.overhead table |} |}.

(** [calculateSavings], lines 51-129, with the table read from the
    module's state. *)
Definition calculateSavings_in (m : AssumptionsModule.t num)
    (input : MerchantInput.t num) (packageType : PackageType)
    : outcome (CostComparisonResult.t num) :=
  let warehouseSize := MerchantInput.warehouseSize input in
  let ordersPerMonth := MerchantInput.ordersPerMonth input in
  let averageItemsPerOrder := MerchantInput.averageItemsPerOrder input in
  let packageConfig := PACKAGE_SERVICES packageType in
  let assumptions := getAssumptions_in m in
  let totalItems := ordersPerMonth * averageItemsPerOrder in
  let merchantStorage := lit 0 in
  let merchantHandlingIn := lit 0 in
  let merchantHandlingOut := lit 0 in
  let merchantDelivery := lit 0 in
  let rootsStorage := lit 0 in
  let rootsHandlingIn := lit 0 in
  let rootsHandlingOut := lit 0 in
  let rootsDelivery := lit 0 in
  let '(merchantStorage, rootsStorage) :=
    if includes (PackageConfig.services packageConfig) ServiceType.storage then
      (warehouseSize
         * StorageAssumptions.costPerSqm (Assumptions.storage assumptions)
         * StorageAssumptions.merchantOverheadMultiplier (Assumptions.storage assumptions),
       warehouseSize
         * StorageAssumptions.costPerSqm (Assumptions.storage assumptions))
    else (merchantStorage, rootsStorage) in
  let '(merchantHandlingIn, rootsHandlingIn) :=
    if includes (PackageConfig.services packageConfig) ServiceType.handlingIn then
      let merchantHandlingInTime :=
        totalItems
          * HandlingInAssumptions.merchantTimePerItem (Assumptions.handlingIn assumptions) in
      let rootsHandlingInTime :=
        totalItems
          * HandlingInAssumptions.rootsTimePerItem (Assumptions.handlingIn assumptions) in
      (merchantHandlingInTime
         * HandlingInAssumptions.laborCostPerMinute (Assumptions.handlingIn assumptions),
       rootsHandlingInTime
         * HandlingInAssumptions.laborCostPerMinute (Assumptions.handlingIn assumptions)
         * HandlingInAssumptions.rootsEfficiencyMultiplier (Assumptions.handlingIn assumptions))
    else (merchantHandlingIn, rootsHandlingIn) in
  let '(merchantHandlingOut, rootsHandlingOut) :=
    if includes (PackageConfig.services packageConfig) ServiceType.handlingOut then
      let merchantHandlingOutTime :=
        ordersPerMonth
          * HandlingOutAssumptions.merchantTimePerOrder (Assumptions.handlingOut assumptions) in
      let rootsHandlingOutTime :=
        ordersPerMonth
          * HandlingOutAssumptions.rootsTimePerOrder (Assumptions.handlingOut assumptions) in
      (merchantHandlingOutTime
         * HandlingOutAssumptions.laborCostPerMinute (Assumptions.handlingOut assumptions),
       rootsHandlingOutTime
         * HandlingOutAssumptions.laborCostPerMinute (Assumptions.handlingOut assumptions)
         * HandlingOutAssumptions.rootsEfficiencyMultiplier (Assumptions.handlingOut assumptions))
    else (merchantHandlingOut, rootsHandlingOut) in
  let '(merchantDelivery, rootsDelivery) :=
    if includes (PackageConfig.services packageConfig) ServiceType.delivery then
      (ordersPerMonth
         * DeliveryAssumptions.deliveryAmman24hrsMerchant (Assumptions.delivery assumptions),
       ordersPerMonth
         * DeliveryAssumptions.deliveryAmman24hrsRoots (Assumptions.delivery assumptions))
    else (merchantDelivery, rootsDelivery) in
  let merchantOverhead :=
    (merchantStorage + merchantHandlingIn + merchantHandlingOut + merchantDelivery)
      * OverheadAssumptions.merchantOverheadRate (Assumptions.overhead assumptions) in
  let merchantTotal :=
    merchantStorage + merchantHandlingIn + merchantHandlingOut + merchantDelivery
      + merchantOverhead in
  let rootsOverhead :=
    OverheadAssumptions.rootsOverhead (Assumptions.overhead assumptions) in
  let rootsTotal :=
    rootsStorage + rootsHandlingIn + rootsHandlingOut + rootsDelivery
      + rootsOverhead in
  let monthlySavings := merchantTotal - rootsTotal in
  let yearlySavings := monthlySavings * lit 12 in
  savingsPercentage <-
    (if merchantTotal >? lit 0
     then (q <- monthlySavings / merchantTotal ;; ret (q * lit 100))
     else ret (lit 0)) ;;
  ret {| CostComparisonResult.merchantCost :=
           {| Cost.storage := merchantStorage;
              Cost.handlingIn := merchantHandlingIn;
              Cost.handlingOut := merchantHandlingOut;
              Cost.delivery := merchantDelivery;
              Cost.overhead := merchantOverhead;
              Cost.total := merchantTotal |};
         CostComparisonResult.rootsCost :=
           {| Cost.storage := rootsStorage;
              Cost.handlingIn := rootsHandlingIn;
              Cost.handlingOut := rootsHandlingOut;
              Cost.delivery := rootsDelivery;
              Cost.overhead := rootsOverhead;
              Cost.total := rootsTotal |};
         CostComparisonResult.savings :=
           {| Savings.monthly := monthlySavings;
              Savings.yearly := yearlySavings;
              Savings.percentage := savingsPercentage |};
         CostComparisonResult.packageConfig := packageConfig |}.

End EngineOverModuleState.

(** ** The contract of the specification (section 4.1)

    Written from the specification's words, to be compared with the
    engine: the cost formulas per service, the three bundles, and
    [computeSavings (input, pkg, assumptions)], which takes the table as
    its third argument. *)

Module Spec.

Section Contract.

Context {num : Type} {N : Number num}.

Local Open Scope js_scope.

Definition totalItems (input : MerchantInput.t num) : num :=
  MerchantInput.ordersPerMonth input * MerchantInput.averageItemsPerOrder input.

Definition merchantCost (a : Assumptions.t num) (input : MerchantInput.t num)
    (s : ServiceType.t) : num :=
  match s with
  | ServiceType.storage =>
      MerchantInput.warehouseSize input
        * StorageAssumptions.costPerSqm (Assumptions.storage a)
        * StorageAssumptions.merchantOverheadMultiplier (Assumptions.storage a)
  | ServiceType.handlingIn =>
      totalItems input
        * HandlingInAssumptions.merchantTimePerItem (Assumptions.handlingIn a)
        * HandlingInAssumptions.laborCostPerMinute (Assumptions.handlingIn a)
  | ServiceType.handlingOut =>
      MerchantInput.ordersPerMonth input
        * HandlingOutAssumptions.merchantTimePerOrder (Assumptions.handlingOut a)
        * HandlingOutAssumptions.laborCostPerMinute (Assumptions.handlingOut a)
  | ServiceType.delivery =>
      MerchantInput.ordersPerMonth input
        * DeliveryAssumptions.deliveryAmman24hrsMerchant (Assumptions.delivery a)
  end.

Definition alternateCost (a : Assumptions.t num) (input : MerchantInput.t num)
    (s : ServiceType.t) : num :=
  match s with
  | ServiceType.storage =>
      MerchantInput.warehouseSize input
        * StorageAssumptions.costPerSqm (Assumptions.storage a)
  | ServiceType.handlingIn =>
      totalItems input
        * HandlingInAssumptions.rootsTimePerItem (Assumptions.handlingIn a)
        * HandlingInAssumptions.laborCostPerMinute (Assumptions.handlingIn a)
        * HandlingInAssumptions.rootsEfficiencyMultiplier (Assumptions.handlingIn a)
  | ServiceType.handlingOut =>
      MerchantInput.ordersPerMonth input
        * HandlingOutAssumptions.rootsTimePerOrder (Assumptions.handlingOut a)
        * HandlingOutAssumptions.laborCostPerMinute (Assumptions.handlingOut a)
        * HandlingOutAssumptions.rootsEfficiencyMultiplier (Assumptions.handlingOut a)
  | ServiceType.delivery =>
      MerchantInput.ordersPerMonth input
        * DeliveryAssumptions.deliveryAmman24hrsRoots (Assumptions.delivery a)
  end.

(** The three bundles of the data model. *)
Definition included (pkg : PackageType) (s : ServiceType.t) : bool :=
  match pkg, s with
  | fulfillment, _ => true
  | store_pack, ServiceType.delivery => false
  | store_pack, _ => true
  | sort_pack, ServiceType.storage => false
  | sort_pack, _ => true
  end.

Definition partyCost (cost : ServiceType.t -> num) (pkg : PackageType)
    (s : ServiceType.t) : num :=
  if included pkg s then cost s else lit 0.

Definition subtotal (cost : ServiceType.t -> num) : num :=
  cost ServiceType.storage + cost ServiceType.handlingIn
    + cost ServiceType.handlingOut + cost ServiceType.delivery.

Definition computeSavings (input : MerchantInput.t num) (pkg : PackageType)
    (assumptions : Assumptions.t num) : outcome (CostComparisonResult.t num) :=
  let merchant := partyCost (merchantCost assumptions input) pkg in
  let alternate := partyCost (alternateCost assumptions input) pkg in
  let merchantOverhead :=
    subtotal merchant
      * OverheadAssumptions.merchantOverheadRate (Assumptions.overhead assumptions) in
  let alternateOverhead :=
    OverheadAssumptions.rootsOverhead (Assumptions.overhead assumptions) in
  let merchantTotal := subtotal merchant + merchantOverhead in
  let alternateTotal := subtotal alternate + alternateOverhead in
  let monthly := merchantTotal - alternateTotal in
  let yearly := monthly * lit 12 in
  percentage <-
    (if merchantTotal >? lit 0
     then (q <- monthly / merchantTotal ;; ret (q * lit 100))
     else ret (lit 0)) ;;
  ret {| CostComparisonResult.merchantCost :=
           {| Cost.storage := merchant ServiceType.storage;
              Cost.handlingIn := merchant ServiceType.handlingIn;
              Cost.handlingOut := merchant ServiceType.handlingOut;
              Cost.delivery := merchant ServiceType.delivery;
              Cost.overhead := merchantOverhead;
              Cost.total := merchantTotal |};
         CostComparisonResult.rootsCost :=
           {| Cost.storage := alternate ServiceType.storage;
              Cost.handlingIn := alternate ServiceType.handlingIn;
              Cost.handlingOut := alternate ServiceType.handlingOut;
              Cost.delivery := alternate ServiceType.delivery;
              Cost.overhead := alternateOverhead;
              Cost.total := alternateTotal |};
         CostComparisonResult.savings :=
           {| Savings.monthly := monthly;
              Savings.yearly := yearly;
              Savings.percentage := percentage |};
         CostComparisonResult.packageConfig := PACKAGE_SERVICES pkg |}.

End Contract.

End Spec.

(** ** components/calculator-results.tsx: [ServiceBreakdown]

    The values the component computes and hands to the chart and to the
    "Detailed Cost Analysis" list; their formatting ([toLocaleString],
    [toFixed]) and the markup are left out. *)

Module ChartItem.
Record t (num : Type) : Type := mk {
  name : string;
  Your_Cost : num;
  Roots_Cost : num
}.
End ChartItem.

Module DetailRow.
Record t (num : Type) : Type := mk {
  item : ChartItem.t num;
  savings : num;
  savingsPercentage : num
}.
End DetailRow.

Module Breakdown.
Record t (num : Type) : Type := mk {
  results : CostComparisonResult.t num;
  chartData : list (ChartItem.t num);
  rows : list (DetailRow.t num)
}.
End Breakdown.

(** [Array.prototype.map] with a callback that may fail. *)
Fixpoint mapM {A B : Type} (f : A -> outcome B) (l : list A) : outcome (list B) :=
  match l with
  | [] => Returned []
  | a :: l' =>
      bind (f a) (fun b => bind (mapM f l') (fun bs => Returned (b :: bs)))
  end.

Section Components.

Context {num : Type} {N : Number num}.

Local Open Scope js_scope.

(** Lines 411-439: one [push] per included service, in this order. *)
Definition chartData (results : CostComparisonResult.t num) : list (ChartItem.t num) :=
  let services := PackageConfig.services (CostComparisonResult.packageConfig results) in
  let chartData := [] in
  let chartData :=
    if includes services ServiceType.storage then
      chartData ++
        [{| ChartItem.name := "Storage";
            ChartItem.Your_Cost := Cost.storage (CostComparisonResult.merchantCost results);
            ChartItem.Roots_Cost := Cost.storage (CostComparisonResult.rootsCost results) |}]
    else chartData in
  let chartData :=
    if includes services ServiceType.handlingIn then
      chartData ++
        [{| ChartItem.name := "Handling In";
            ChartItem.Your_Cost := Cost.handlingIn (CostComparisonResult.merchantCost results);
            ChartItem.Roots_Cost := Cost.handlingIn (CostComparisonResult.rootsCost results) |}]
    else chartData in
  let chartData :=
    if includes services ServiceType.handlingOut then
      chartData ++
        [{| ChartItem.name := "Handling Out";
            ChartItem.Your_Cost := Cost.handlingOut (CostComparisonResult.merchantCost results);
            ChartItem.Roots_Cost := Cost.handlingOut (CostComparisonResult.rootsCost results) |}]
    else chartData in
  let chartData :=
    if includes services ServiceType.delivery then
      chartData ++
        [{| ChartItem.name := "Delivery";
            ChartItem.Your_Cost := Cost.delivery (CostComparisonResult.merchantCost results);
            ChartItem.Roots_Cost := Cost.delivery (CostComparisonResult.rootsCost results) |}]
    else chartData in
  chartData.

(** Lines 493-497: the callback of [chartData.map]. *)
Definition detailRow (item : ChartItem.t num) : outcome (DetailRow.t num) :=
  let yourCost := ChartItem.Your_Cost item in
  let rootsCost := ChartItem.Roots_Cost item in
  let savings := yourCost - rootsCost in
  savingsPercentage <-
    (if yourCost >? lit 0
     then (q <- savings / yourCost ;; ret (q * lit 100))
     else ret (lit 0)) ;;
  ret {| DetailRow.item := item;
         DetailRow.savings := savings;
         DetailRow.savingsPercentage := savingsPercentage |}.

Definition ServiceBreakdown (packageType : PackageType) (input : MerchantInput.t num)
    : outcome (Breakdown.t num) :=
  results <- calculateSavings input packageType ;;
  let chartData := chartData results in
  rows <- mapM detailRow chartData ;;
  ret {| Breakdown.results := results;
         Breakdown.chartData := chartData;
         Breakdown.rows := rows |}.

(** [CalculatorResults]: the placeholder card until [showResults], then
    the three tabs, each holding the breakdown of its package. *)
Inductive ResultsView : Type :=
| Placeholder
| Tabs (activePackage : PackageType)
       (content : PackageType -> outcome (Breakdown.t num)).

Definition CalculatorResults (input : MerchantInput.t num) (showResults : bool)
    (activePackage : PackageType) : ResultsView :=
  if negb showResults then Placeholder
  else Tabs activePackage (fun packageType => ServiceBreakdown packageType input).

End Components.

(** ** components/calculator.tsx: the form

    [Number.parseFloat] is a parameter; [None] stands for its [NaN]. *)

Module Field.
Inductive t : Type :=
| warehouseSize
| ordersPerMonth
| averageItemsPerOrder.
End Field.

Module CalculatorState.
Record t (num : Type) : Type := mk {
  input : MerchantInput.t num;
  showResults : bool
}.
End CalculatorState.

Inductive CalculatorEvent : Type :=
| ClickCalculate
| ChangeInput (field : Field.t) (value : string).

Section Calculator.

Context {num : Type} {N : Number num}.

Variable parseFloat : string -> option num.

Local Open Scope js_scope.

(** A number is truthy unless it is 0, -0 or NaN. *)
Definition truthy (x : num) : bool := (x >? lit 0) || (lit 0 >? x).

(** [{ ...prev, [field]: numValue }]. *)
Definition setField (prev : MerchantInput.t num) (field : Field.t) (numValue : num)
    : MerchantInput.t num :=
  match field with
  | Field.warehouseSize =>
      {| MerchantInput.warehouseSize := numValue;
         MerchantInput.ordersPerMonth := MerchantInput.ordersPerMonth prev;
         MerchantInput.averageItemsPerOrder := MerchantInput.averageItemsPerOrder prev |}
  | Field.ordersPerMonth =>
      {| MerchantInput.warehouseSize := MerchantInput.warehouseSize prev;
         MerchantInput.ordersPerMonth := numValue;
         MerchantInput.averageItemsPerOrder := MerchantInput.averageItemsPerOrder prev |}
  | Field.averageItemsPerOrder =>
      {| MerchantInput.warehouseSize := MerchantInput.warehouseSize prev;
         MerchantInput.ordersPerMonth := MerchantInput.ordersPerMonth prev;
         MerchantInput.averageItemsPerOrder := numValue |}
  end.

(** The two [useState] calls. *)
Definition initialState : CalculatorState.t num :=
  {| CalculatorState.input :=
       {| MerchantInput.warehouseSize := lit 0;
          MerchantInput.ordersPerMonth := lit 0;
          MerchantInput.averageItemsPerOrder := lit 0 |};
     CalculatorState.showResults := false |}.

Definition handleCalculate (state : CalculatorState.t num) : CalculatorState.t num :=
  let input := CalculatorState.input state in
  if (MerchantInput.warehouseSize input >? lit 0)
     && (MerchantInput.ordersPerMonth input >? lit 0)
     && (MerchantInput.averageItemsPerOrder input >? lit 0)
  then {| CalculatorState.input := input; CalculatorState.showResults := true |}
  else state.

Definition handleInputChange (field : Field.t) (value : string)
    (state : CalculatorState.t num) : CalculatorState.t num :=
  let numValue :=
    match parseFloat value with
    | Some v => if truthy v then v else lit 0
    | None => lit 0
    end in
  {| CalculatorState.input := setField (CalculatorState.input state) field numValue;
     CalculatorState.showResults := false |}.

Definition handle (state : CalculatorState.t num) (e : CalculatorEvent)
    : CalculatorState.t num :=
  match e with
  | ClickCalculate => handleCalculate state
  | ChangeInput field value => handleInputChange field value state
  end.

(** The state after a session of clicks and edits. *)
Definition session (events : list CalculatorEvent) : CalculatorState.t num :=
  fold_left handle events initialState.

(** What the right panel shows: [<CalculatorResults input showResults />]. *)
Definition resultsPanel (state : CalculatorState.t num) (activePackage : PackageType)
    : ResultsView (num:=num) :=
  CalculatorResults (CalculatorState.input state)
    (CalculatorState.showResults state) activePackage.

End Calculator.

(** ** components/calculator-results.tsx: [downloadReport]

    The jsPDF document is the log of the calls made on it.  What the
    library and the browser decide is a parameter: the page size, how a
    text wraps ([splitTextToSize], which sees the document and so its
    current font), how a number prints, and today's date. *)

Module Pdf.
Inductive op (num : Type) : Type :=
| SetFontSize (size : num)
| SetFont (fontName fontStyle : string)
| Text (lines : list string) (x y : num)
| AddPage
| Save (filename : string).

Arguments AddPage {num}.
Arguments SetFont {num}.
Arguments Save {num}.
End Pdf.

Module ReportEnv.
Record t (num : Type) : Type := mk {
  pageWidth : num;
  pageHeight : num;
  splitTextToSize : list (Pdf.op num) -> string -> num -> list string;
  toLocaleString : num -> string;
  toLocaleString_en_US : num -> string;
  toFixed_1 : num -> string;
  toLocaleDateString_en_US : string;
  toISOString_date : string
}.
End ReportEnv.

(** The document and the [let yPosition] of [downloadReport]. *)
Module Layout.
Record t (num : Type) : Type := mk {
  doc : list (Pdf.op num);
  yPosition : num
}.
End Layout.

Section Report.

Context {num : Type} {N : Number num}.

Variable env : ReportEnv.t num.

Local Open Scope js_scope.

Definition margin : num := lit 20.
Definition lineHeight : num := lit 7.
Definition sectionSpacing : num := lit 10.

(** Lines 249-255; [lines.length] is read as a number. *)
Definition addText (doc : list (Pdf.op num)) (text : string) (x y : num)
    (fontSize : num) (isBold : bool) : list (Pdf.op num) * num :=
  let doc := (doc ++ [Pdf.SetFontSize fontSize])%list in
  let doc :=
    (doc ++ [Pdf.SetFont "helvetica" (if isBold then "bold" else "normal")])%list in
  let lines :=
    ReportEnv.splitTextToSize env doc text
      (ReportEnv.pageWidth env - lit 2 * margin - x) in
  let doc := (doc ++ [Pdf.Text lines x y])%list in
  (doc, lit (inject_Z (Z.of_nat (length lines))) * lineHeight).

(** [yPosition += addText(text, margin, yPosition, fontSize, isBold)]. *)
Definition write (text : string) (fontSize : num) (isBold : bool)
    (st : Layout.t num) : Layout.t num :=
  let '(doc, height) :=
    addText (Layout.doc st) text margin (Layout.yPosition st) fontSize isBold in
  {| Layout.doc := doc; Layout.yPosition := Layout.yPosition st + height |}.

(** [yPosition += d]. *)
Definition down (d : num) (st : Layout.t num) : Layout.t num :=
  {| Layout.doc := Layout.doc st; Layout.yPosition := Layout.yPosition st + d |}.

(** [if (yPosition > pageHeight - reserve) { doc.addPage(); yPosition = 20 }]. *)
Definition newPageIfBelow (reserve : num) (st : Layout.t num) : Layout.t num :=
  if Layout.yPosition st >? ReportEnv.pageHeight env - reserve
  then {| Layout.doc := (Layout.doc st ++ [Pdf.AddPage])%list;
          Layout.yPosition := lit 20 |}
  else st.

(** One service block of lines 285-355: the four blocks differ only in
    the heading and in the two cost lines they print. *)
Definition serviceSection (heading : string) (merchant roots : num)
    (st : Layout.t num) : outcome (Layout.t num) :=
  let savings := merchant - roots in
  savingsPct <-
    (if merchant >? lit 0
     then (q <- savings / merchant ;; ret (ReportEnv.toFixed_1 env (q * lit 100)))
     else ret "0.0"%string) ;;
  let st := write heading (lit 10) true st in
  let st := down lineHeight st in
  let st :=
    write ("  Your Cost: $" ++ ReportEnv.toLocaleString_en_US env merchant)%string
      (lit 10) false st in
  let st := down lineHeight st in
  let st :=
    write ("  Roots Cost: $" ++ ReportEnv.toLocaleString_en_US env roots)%string
      (lit 10) false st in
  let st := down lineHeight st in
  let st :=
    write ("  Savings: $" ++ ReportEnv.toLocaleString_en_US env savings
             ++ " (" ++ savingsPct ++ "%)")%string
      (lit 10) false st in
  let st := down (lit 3) st in
  ret st.

Definition downloadReport (input : MerchantInput.t num) (packageType : PackageType)
    (results : CostComparisonResult.t num) : outcome (list (Pdf.op num)) :=
  let packageConfig := PACKAGE_SERVICES packageType in
  let services :=
    PackageConfig.services (CostComparisonResult.packageConfig results) in
  let merchantCost := CostComparisonResult.merchantCost results in
  let rootsCost := CostComparisonResult.rootsCost results in
  let st := {| Layout.doc := []; Layout.yPosition := lit 20 |} in
  (* Title *)
  let st := write "ROOTS FULFILLMENT SAVINGS CALCULATOR REPORT" (lit 16) true st in
  let st := down (lit 5) st in
  let st :=
    write ("Generated: " ++ ReportEnv.toLocaleDateString_en_US env)%string
      (lit 10) false st in
  let st := down sectionSpacing st in
  (* Business Inputs *)
  let st := write "BUSINESS INPUTS" (lit 12) true st in
  let st := down (lit 5) st in
  let st :=
    write ("Warehouse Size: "
             ++ ReportEnv.toLocaleString env (MerchantInput.warehouseSize input)
             ++ " sqm")%string (lit 10) false st in
  let st := down lineHeight st in
  let st :=
    write ("Orders per Month: "
             ++ ReportEnv.toLocaleString env (MerchantInput.ordersPerMonth input))%string
      (lit 10) false st in
  let st := down lineHeight st in
  let st :=
    write ("Average Items per Order: "
             ++ ReportEnv.toFixed_1 env (MerchantInput.averageItemsPerOrder input))%string
      (lit 10) false st in
  let st := down lineHeight st in
  let st :=
    write ("Package Selected: " ++ PackageConfig.label packageConfig)%string
      (lit 10) false st in
  let st := down sectionSpacing st in
  let st := newPageIfBelow (lit 60) st in
  (* Cost Breakdown *)
  let st := write "COST BREAKDOWN" (lit 12) true st in
  let st := down (lit 5) st in
  st <-
    (if includes services ServiceType.storage
     then serviceSection "Storage:"
            (Cost.storage merchantCost) (Cost.storage rootsCost) st
     else ret st) ;;
  st <-
    (if includes services ServiceType.handlingIn
     then serviceSection "Handling In:"
            (Cost.handlingIn merchantCost) (Cost.handlingIn rootsCost)
            (newPageIfBelow (lit 50) st)
     else ret st) ;;
  st <-
    (if includes services ServiceType.handlingOut
     then serviceSection "Handling Out:"
            (Cost.handlingOut merchantCost) (Cost.handlingOut rootsCost)
            (newPageIfBelow (lit 50) st)
     else ret st) ;;
  st <-
    (if includes services ServiceType.delivery
     then serviceSection "Delivery:"
            (Cost.delivery merchantCost) (Cost.delivery rootsCost)
            (newPageIfBelow (lit 50) st)
     else ret st) ;;
  let st := newPageIfBelow (lit 50) st in
  let st := write "Overhead:" (lit 10) true st in
  let st := down lineHeight st in
  let st :=
    write ("  Your Cost: $"
             ++ ReportEnv.toLocaleString_en_US env (Cost.overhead merchantCost))%string
      (lit 10) false st in
  let st := down lineHeight st in
  let st :=
    write ("  Roots Cost: $"
             ++ ReportEnv.toLocaleString_en_US env (Cost.overhead rootsCost))%string
      (lit 10) false st in
  let st := down sectionSpacing st in
  (* Total Costs *)
  let st := newPageIfBelow (lit 50) st in
  let st := write "TOTAL COSTS" (lit 12) true st in
  let st := down (lit 5) st in
  let st :=
    write ("Your Total Monthly Cost: $"
             ++ ReportEnv.toLocaleString_en_US env (Cost.total merchantCost))%string
      (lit 10) false st in
  let st := down lineHeight st in
  let st :=
    write ("Roots Total Monthly Cost: $"
             ++ ReportEnv.toLocaleString_en_US env (Cost.total rootsCost))%string
      (lit 10) false st in
  let st := down sectionSpacing st in
  (* Savings Summary *)
  let st := newPageIfBelow (lit 50) st in
  let st := write "SAVINGS SUMMARY" (lit 12) true st in
  let st := down (lit 5) st in
  let st :=
    write ("Monthly Savings: $"
             ++ ReportEnv.toLocaleString_en_US env
                  (Savings.monthly (CostComparisonResult.savings results)))%string
      (lit 10) false st in
  let st := down lineHeight st in
  let st :=
    write ("Yearly Savings: $"
             ++ ReportEnv.toLocaleString_en_US env
                  (Savings.yearly (CostComparisonResult.savings results)))%string
      (lit 10) false st in
  let st := down lineHeight st in
  let st :=
    write ("Savings Percentage: "
             ++ ReportEnv.toFixed_1 env
                  (Savings.percentage (CostComparisonResult.savings results))
             ++ "%")%string
      (lit 10) false st in
  let st := down sectionSpacing st in
  (* Footer *)
  let st := newPageIfBelow (lit 40) st in
  let st := write "For more information, visit: https://roots-jo.co/" (lit 10) false st in
  let st := down lineHeight st in
  let st := write "Contact us: https://roots-jo.co/#contact" (lit 10) false st in
  (* Save PDF *)
  ret (Layout.doc st
         ++ [Pdf.Save ("roots-savings-report-" ++ ReportEnv.toISOString_date env
                         ++ ".pdf")%string])%list.

End Report.

(** ** Inputs used in the examples *)

Definition mkInput {num : Type} {N : Number num} (w o k : Q) : MerchantInput.t num :=
  {| MerchantInput.warehouseSize := lit w;
     MerchantInput.ordersPerMonth := lit o;
     MerchantInput.averageItemsPerOrder := lit k |}.

(** [warehouseSize=500, ordersPerMonth=1000, averageItemsPerOrder=2]. *)
Definition scenario {num : Type} {N : Number num} : MerchantInput.t num :=
  mkInput 500 1000 2.

(** The sum of a party's cost lines over the services of a bundle. *)
Definition sumIncluded {num : Type} {N : Number num}
    (services : list ServiceType.t) (c : Cost.t num) : num :=
  fold_left (fun acc s => add acc (Cost.line c s)) services (lit 0).

(** The default table with the storage price doubled. *)
Definition doubledStoragePrice : Assumptions.t Q :=
  {| Assumptions.storage :=
       {| StorageAssumptions.costPerSqm := 24%Q;
          StorageAssumptions.merchantOverheadMultiplier := 1.25%Q |};
     Assumptions.handlingIn := Assumptions.handlingIn DEFAULT_ASSUMPTIONS;
     Assumptions.handlingOut := Assumptions.handlingOut DEFAULT_ASSUMPTIONS;
     Assumptions.delivery := Assumptions.delivery DEFAULT_ASSUMPTIONS;
     Assumptions.overhead := Assumptions.overhead DEFAULT_ASSUMPTIONS |}.

(** The [name] pushed for a service. *)
Definition chartLabel (s : ServiceType.t) : string :=
  match s with
  | ServiceType.storage => "Storage"
  | ServiceType.handlingIn => "Handling In"
  | ServiceType.handlingOut => "Handling Out"
  | ServiceType.delivery => "Delivery"
  end.

(** What the default table makes of each service: the share of the
    merchant's cost that the alternate party saves, in percent. *)
Definition tableSavingsPercent (s : ServiceType.t) : Q :=
  match s with
  | ServiceType.storage => 20
  | ServiceType.handlingIn => 57.5
  | ServiceType.handlingOut => 49
  | ServiceType.delivery => 100 # 11
  end.

(** A [parseFloat] for the examples: it reads the three texts of the
    documented scenario and a negative number, and answers NaN to the
    rest. *)
Definition parseFloat_sample (value : string) : option Q :=
  if String.eqb value "500" then Some 500%Q
  else if String.eqb value "1000" then Some 1000%Q
  else if String.eqb value "2" then Some 2%Q
  else if String.eqb value "-3" then Some (-3)%Q
  else None.

(** The font size in force on a document: the last [setFontSize] of its
    log (a new jsPDF document starts at 16). *)
Definition currentFontSize (doc : list (Pdf.op Q)) : Q :=
  fold_left (fun size op =>
               match op with
               | Pdf.SetFontSize s => s
               | _ => size
               end) doc 16%Q.

(** [lines.length], as a number. *)
Definition lineCount (lines : list string) : Q :=
  inject_Z (Z.of_nat (length lines)).

(** Every text of the document starts at the left margin and no higher
    than the top margin, and its last line, at the 7 units a line that
    [addText] counts, is at least six units above the bottom edge of the
    page. *)
Definition onPage (env : ReportEnv.t Q) (doc : list (Pdf.op Q)) : Prop :=
  forall lines x y,
    In (Pdf.Text lines x y) doc ->
    (x == 20 /\ 20 <= y
     /\ y + 7 * (lineCount lines - 1) <= ReportEnv.pageHeight env - 6)%Q.

(** The layout so far is on the page and the cursor has [room] left above
    the bottom edge. *)
Definition roomLeft (env : ReportEnv.t Q) (room : Q) (st : Layout.t Q) : Prop :=
  onPage env (Layout.doc st)
  /\ (20 <= Layout.yPosition st)%Q
  /\ (Layout.yPosition st <= ReportEnv.pageHeight env - room)%Q.

(** The default jsPDF page, 210 by 297: at 16 points a text takes two
    lines, as the title does on the 150 units left between the margins,
    and at 10 and 12 points one; numbers print as [n] and the day is
    fixed. *)
Definition a4Page : ReportEnv.t Q :=
  {| ReportEnv.pageWidth := 210%Q;
     ReportEnv.pageHeight := 297%Q;
     ReportEnv.splitTextToSize :=
       fun doc text _ =>
         if Qeq_bool (currentFontSize doc) 16
         then ["ROOTS FULFILLMENT SAVINGS CALCULATOR"; "REPORT"]%string
         else [text];
     ReportEnv.toLocaleString := fun _ => "n"%string;
     ReportEnv.toLocaleString_en_US := fun _ => "n"%string;
     ReportEnv.toFixed_1 := fun _ => "n"%string;
     ReportEnv.toLocaleDateString_en_US := "November 2, 2026"%string;
     ReportEnv.toISOString_date := "2026-11-02"%string |}.

(** The figures of the documented scenario, as a result record. *)
Definition scenarioResults : CostComparisonResult.t Q :=
  {| CostComparisonResult.merchantCost :=
       {| Cost.storage := 7500%Q; Cost.handlingIn := 2000%Q;
          Cost.handlingOut := 2500%Q; Cost.delivery := 2200%Q;
          Cost.overhead := 2840%Q; Cost.total := 17040%Q |};
     CostComparisonResult.rootsCost :=
       {| Cost.storage := 6000%Q; Cost.handlingIn := 850%Q;
          Cost.handlingOut := 1275%Q; Cost.delivery := 2000%Q;
          Cost.overhead := 0%Q; Cost.total := 10125%Q |};
     CostComparisonResult.savings :=
       {| Savings.monthly := 6915%Q; Savings.yearly := 82980%Q;
          Savings.percentage := (691500 # 17040)%Q |};
     CostComparisonResult.packageConfig := PACKAGE_SERVICES fulfillment |}.

(** The range of volumes on which the doubles of the engine neither
    overflow nor underflow: with every field between [volumeFloor] and
    [volumeCap] the largest product stays below 1.3e300 and the smallest
    above 4e-301.  [overflowingInput] lies beyond it: there the engine's
    sums reach Infinity. *)
Definition volumeCap : Q := (10 ^ 150)%Q.
Definition volumeFloor : Q := (10 ^ (-150))%Q.

#[warnings="-inexact-float"] Definition overflowingInput : MerchantInput.t float :=
  {| MerchantInput.warehouseSize := 1e308%float;
     MerchantInput.ordersPerMonth := 1e308%float;
     MerchantInput.averageItemsPerOrder := 2%float |}.

(** Volumes to try the doubles on: the two ends of the range (2^-498 and
    2^498 are the doubles next inside it), round numbers, and decimals
    that no double represents exactly. *)
#[warnings="-inexact-float"] Definition probeVolumes : list float :=
  [1e-150; 0x1p-498; 1e-100; 1e-7; 0.1; 0.3; 1; 2.3; 3; 5; 57; 123.4;
   999999.999; 1e16; 7e99; 0x1p+498; 1e150]%float.

(** The same with zero and the smallest doubles, for what must also hold
    below the range. *)
#[warnings="-inexact-float"] Definition probeVolumesFromZero : list float :=
  [0; 0x1p-1074; 0x3p-1074; 0x1p-1022; 1e-300; 1e-150; 2.3; 1e16; 1e150]%float.

Definition probeInputs (volumes : list float) : list (MerchantInput.t float) :=
  flat_map (fun w =>
    flat_map (fun o =>
      map (fun k =>
             {| MerchantInput.warehouseSize := w;
                MerchantInput.ordersPerMonth := o;
                MerchantInput.averageItemsPerOrder := k |}) volumes) volumes) volumes.

Definition allPackages : list PackageType := [fulfillment; store_pack; sort_pack].

(** On doubles: no line costs the merchant less than the alternate
    party, monthly savings are not negative and the percentage lies
    between 0 and 100.  Every comparison is false on a NaN. *)
Definition neverNegative (r : CostComparisonResult.t float) : bool :=
  forallb (fun s =>
             PrimFloat.leb (Cost.line (CostComparisonResult.rootsCost r) s)
                           (Cost.line (CostComparisonResult.merchantCost r) s))
          [ServiceType.storage; ServiceType.handlingIn;
           ServiceType.handlingOut; ServiceType.delivery]
  && PrimFloat.leb 0 (Savings.monthly (CostComparisonResult.savings r))
  && PrimFloat.leb 0 (Savings.percentage (CostComparisonResult.savings r))
  && PrimFloat.leb (Savings.percentage (CostComparisonResult.savings r)) 100.

(** How far rounding may move a percentage of the detailed analysis. *)
Definition percentTolerance : Q := (10 ^ (-9))%Q.

(** The same two properties of a breakdown, read on doubles: strictly
    positive savings with a percentage strictly inside 0 and 100, and
    rows within 2^-30 (below [percentTolerance]) of the table's
    percentages. *)
Definition positiveSavings (r : CostComparisonResult.t float) : bool :=
  PrimFloat.ltb 0 (Cost.total (CostComparisonResult.rootsCost r))
  && PrimFloat.ltb (Cost.total (CostComparisonResult.rootsCost r))
                   (Cost.total (CostComparisonResult.merchantCost r))
  && PrimFloat.ltb 0 (Savings.monthly (CostComparisonResult.savings r))
  && PrimFloat.ltb 0 (Savings.percentage (CostComparisonResult.savings r))
  && PrimFloat.ltb (Savings.percentage (CostComparisonResult.savings r)) 100.

Definition tableSavingsPercent_binary64 (s : ServiceType.t) : float :=
  match s with
  | ServiceType.storage => 20
  | ServiceType.handlingIn => 57.5
  | ServiceType.handlingOut => 49
  | ServiceType.delivery => PrimFloat.div 100 11
  end.

Definition rowNearTable (s : ServiceType.t) (row : DetailRow.t float) : bool :=
  PrimFloat.ltb 0 (DetailRow.savings row)
  && PrimFloat.leb (PrimFloat.sub (tableSavingsPercent_binary64 s) 0x1p-30)
                   (DetailRow.savingsPercentage row)
  && PrimFloat.leb (DetailRow.savingsPercentage row)
                   (PrimFloat.add (tableSavingsPercent_binary64 s) 0x1p-30).

Definition rowsNearTable (pkg : PackageType) (b : Breakdown.t float) : bool :=
  Nat.eqb (length (Breakdown.rows b))
          (length (PackageConfig.services (PACKAGE_SERVICES pkg)))
  && forallb (fun sr => rowNearTable (fst sr) (snd sr))
             (combine (PackageConfig.services (PACKAGE_SERVICES pkg))
                      (Breakdown.rows b)).

Definition neverNegativeAt (input : MerchantInput.t float) (pkg : PackageType) : bool :=
  match calculateSavings input pkg with
  | Returned r => neverNegative r
  | DivisionByZero => false
  end.

Definition breakdownHoldsAt (input : MerchantInput.t float) (pkg : PackageType) : bool :=
  match ServiceBreakdown pkg input with
  | Returned b => positiveSavings (Breakdown.results b) && rowsNearTable pkg b
  | DivisionByZero => false
  end.

(** Results are on display only over an input that passed the test of
    [handleCalculate]. *)
Definition shownOnlyIfPositive {num : Type} {N : Number num}
    (state : CalculatorState.t num) : Prop :=
  CalculatorState.showResults state = true ->
  gt (MerchantInput.warehouseSize (CalculatorState.input state)) (lit 0) = true
  /\ gt (MerchantInput.ordersPerMonth (CalculatorState.input state)) (lit 0) = true
  /\ gt (MerchantInput.averageItemsPerOrder (CalculatorState.input state)) (lit 0) = true.

(** * Properties *)

(** ** The carriers *)

Lemma Qgt_bool_iff (x y : Q) : Qgt_bool x y = true <-> (y < x)%Q.
Proof.
  unfold Qgt_bool. rewrite negb_true_iff.
  split; intro H.
  - apply Qnot_le_lt. intro Hle. apply Qle_bool_iff in Hle. congruence.
  - destruct (Qle_bool x y) eqn:E; [|reflexivity].
    apply Qle_bool_iff in E. exfalso. apply (Qlt_not_le _ _ H E).
Qed.

Lemma Qgt_bool_false_iff (x y : Q) : Qgt_bool x y = false <-> (x <= y)%Q.
Proof.
  unfold Qgt_bool. rewrite negb_false_iff. apply Qle_bool_iff.
Qed.

#[export] Instance GuardedDivision_Q : GuardedDivision Q.
Proof.
  intros x y H. cbn in H |- *. apply Qgt_bool_iff in H.
  unfold Qdiv_checked. destruct (Qeq_bool y 0) eqn:E.
  - apply Qeq_bool_eq in E. rewrite E in H. exfalso. apply (Qlt_irrefl _ H).
  - eexists. reflexivity.
Qed.

#[export] Instance GuardedDivision_float : GuardedDivision float.
Proof. intros x y _. eexists. reflexivity. Qed.

(** ** The engine and the contract *)

Section AnyCarrier.

Context {num : Type} {N : Number num} {L : GuardedDivision num}.

Local Open Scope js_scope.

Lemma PACKAGE_SERVICES_included (pkg : PackageType) (s : ServiceType.t) :
  includes (PackageConfig.services (PACKAGE_SERVICES pkg)) s = Spec.included pkg s.
Proof. destruct pkg, s; reflexivity. Qed.

(** The engine implements the contract at the table [getAssumptions ()]
    hands out. *)
Lemma calculateSavings_contract (input : MerchantInput.t num) (pkg : PackageType) :
  calculateSavings input pkg = Spec.computeSavings input pkg (getAssumptions tt).
Proof. destruct pkg; reflexivity. Qed.

Lemma calculateSavings_returns (input : MerchantInput.t num) (pkg : PackageType) :
  exists r, calculateSavings input pkg = Returned r.
Proof.
  rewrite calculateSavings_contract. unfold Spec.computeSavings.
  match goal with
  | |- context [gt ?t (lit 0)] => destruct (gt t (lit 0)) eqn:G
  end.
  - match type of G with
    | gt ?t _ = true =>
        match goal with
        | |- context [div ?m t] => destruct (div_guarded m t G) as [q Hq]; rewrite Hq
        end
    end.
    eexists. reflexivity.
  - eexists. reflexivity.
Qed.

(** What a returned result holds, field by field. *)
Lemma calculateSavings_inv (input : MerchantInput.t num) (pkg : PackageType)
    (r : CostComparisonResult.t num) :
  calculateSavings input pkg = Returned r ->
  let a := getAssumptions tt in
  let m := CostComparisonResult.merchantCost r in
  let c := CostComparisonResult.rootsCost r in
  let v := CostComparisonResult.savings r in
  (forall s, Cost.line m s = Spec.partyCost (Spec.merchantCost a input) pkg s)
  /\ (forall s, Cost.line c s = Spec.partyCost (Spec.alternateCost a input) pkg s)
  /\ Cost.overhead m =
       (Cost.storage m + Cost.handlingIn m + Cost.handlingOut m + Cost.delivery m)
         * OverheadAssumptions.merchantOverheadRate (Assumptions.overhead a)
  /\ Cost.total m =
       Cost.storage m + Cost.handlingIn m + Cost.handlingOut m + Cost.delivery m
         + Cost.overhead m
  /\ Cost.overhead c = OverheadAssumptions.rootsOverhead (Assumptions.overhead a)
  /\ Cost.total c =
       Cost.storage c + Cost.handlingIn c + Cost.handlingOut c + Cost.delivery c
         + Cost.overhead c
  /\ Savings.monthly v = Cost.total m - Cost.total c
  /\ Savings.yearly v = Savings.monthly v * lit 12
  /\ CostComparisonResult.packageConfig r = PACKAGE_SERVICES pkg
  /\ ((Cost.total m >? lit 0) = false -> Savings.percentage v = lit 0)
  /\ ((Cost.total m >? lit 0) = true ->
       exists q, Savings.monthly v / Cost.total m = Returned q
                 /\ Savings.percentage v = q * lit 100).
Proof.
  rewrite calculateSavings_contract. unfold Spec.computeSavings.
  match goal with
  | |- context [gt ?t (lit 0)] => destruct (gt t (lit 0)) eqn:G
  end.
  - match goal with
    | |- context [div ?x ?y] => destruct (div x y) as [q|] eqn:Hq
    end; [|discriminate].
    intro H. injection H as <-. cbn.
    repeat split; try reflexivity; try (intros s; destruct s; reflexivity).
    + intro G'. discriminate (eq_trans (eq_sym G) G').
    + intros _. exists q. split; [exact Hq | reflexivity].
  - intro H. injection H as <-. cbn.
    repeat split; try reflexivity; try (intros s; destruct s; reflexivity).
    intro G'. discriminate (eq_trans (eq_sym G) G').
Qed.

End AnyCarrier.

(** ** Cost lines *)

(** C1: for every input and package, each service the package includes is
    costed by the stated formulas, for the merchant and for the alternate
    party ([Spec.merchantCost] and [Spec.alternateCost], read at the table
    the engine uses).  Holds on every carrier with guarded division. *)
Theorem included_service_cost_formulas {num : Type} {N : Number num}
    {L : GuardedDivision num}
    (input : MerchantInput.t num) (pkg : PackageType) (s : ServiceType.t) :
  includes (PackageConfig.services (PACKAGE_SERVICES pkg)) s = true ->
  exists r,
    calculateSavings input pkg = Returned r
    /\ Cost.line (CostComparisonResult.merchantCost r) s
         = Spec.merchantCost (getAssumptions tt) input s
    /\ Cost.line (CostComparisonResult.rootsCost r) s
         = Spec.alternateCost (getAssumptions tt) input s.
Proof.
  intro Hin. rewrite PACKAGE_SERVICES_included in Hin.
  destruct (calculateSavings_returns input pkg) as [r Hr].
  exists r. split; [exact Hr|].
  destruct (calculateSavings_inv _ _ Hr) as (Hm & Hc & _).
  rewrite Hm, Hc. unfold Spec.partyCost. rewrite Hin. split; reflexivity.
Qed.

Lemma included_service_cost_formulas_witness :
  includes (PackageConfig.services (PACKAGE_SERVICES sort_pack))
           ServiceType.handlingIn = true
  /\ exists r,
       calculateSavings (num:=Q) scenario sort_pack = Returned r
       /\ Cost.line (CostComparisonResult.merchantCost r) ServiceType.handlingIn
            = Spec.merchantCost (getAssumptions tt) scenario ServiceType.handlingIn
       /\ Cost.line (CostComparisonResult.rootsCost r) ServiceType.handlingIn
            = Spec.alternateCost (getAssumptions tt) scenario ServiceType.handlingIn.
Proof.
  split; [reflexivity|].
  apply (included_service_cost_formulas scenario sort_pack ServiceType.handlingIn).
  reflexivity.
Defined.

(** C6: the three bundles are fulfillment = all four services, store-pack
    = storage + handling-in + handling-out, sort-pack = handling-in +
    handling-out + delivery; a service the package leaves out costs
    exactly 0 on both sides, and a service it keeps costs what it costs in
    the fulfillment package, where nothing is left out.  Holds on every
    carrier with guarded division. *)
Theorem excluded_service_costs_zero {num : Type} {N : Number num}
    {L : GuardedDivision num}
    (input : MerchantInput.t num) (pkg : PackageType) :
  PackageConfig.services (PACKAGE_SERVICES fulfillment)
    = [ServiceType.storage; ServiceType.handlingIn;
       ServiceType.handlingOut; ServiceType.delivery]
  /\ PackageConfig.services (PACKAGE_SERVICES store_pack)
    = [ServiceType.storage; ServiceType.handlingIn; ServiceType.handlingOut]
  /\ PackageConfig.services (PACKAGE_SERVICES sort_pack)
    = [ServiceType.handlingIn; ServiceType.handlingOut; ServiceType.delivery]
  /\ exists r full,
       calculateSavings input pkg = Returned r
       /\ calculateSavings input fulfillment = Returned full
       /\ forall s,
            Cost.line (CostComparisonResult.merchantCost r) s
              = (if includes (PackageConfig.services (PACKAGE_SERVICES pkg)) s
                 then Cost.line (CostComparisonResult.merchantCost full) s
                 else lit 0)
            /\ Cost.line (CostComparisonResult.rootsCost r) s
              = (if includes (PackageConfig.services (PACKAGE_SERVICES pkg)) s
                 then Cost.line (CostComparisonResult.rootsCost full) s
                 else lit 0).
Proof.
  do 3 (split; [reflexivity|]).
  destruct (calculateSavings_returns input pkg) as [r Hr].
  destruct (calculateSavings_returns input fulfillment) as [full Hfull].
  exists r, full. do 2 (split; [assumption|]).
  destruct (calculateSavings_inv _ _ Hr) as (Hm & Hc & _).
  destruct (calculateSavings_inv _ _ Hfull) as (Hm' & Hc' & _).
  intro s. rewrite Hm, Hc, Hm', Hc', PACKAGE_SERVICES_included.
  unfold Spec.partyCost. cbn [Spec.included].
  destruct (Spec.included pkg s); split; reflexivity.
Qed.

Lemma excluded_service_costs_zero_witness :
  GuardedDivision float
  /\ exists r full,
       calculateSavings (num:=float) scenario sort_pack = Returned r
       /\ calculateSavings (num:=float) scenario fulfillment = Returned full
       /\ forall s,
            Cost.line (CostComparisonResult.merchantCost r) s
              = (if includes (PackageConfig.services (PACKAGE_SERVICES sort_pack)) s
                 then Cost.line (CostComparisonResult.merchantCost full) s
                 else lit 0)
            /\ Cost.line (CostComparisonResult.rootsCost r) s
              = (if includes (PackageConfig.services (PACKAGE_SERVICES sort_pack)) s
                 then Cost.line (CostComparisonResult.rootsCost full) s
                 else lit 0).
Proof.
  split; [exact GuardedDivision_float|].
  exact (proj2 (proj2 (proj2
    (excluded_service_costs_zero (L:=GuardedDivision_float) scenario sort_pack)))).
Defined.

(** C8: a service included in both of two packages has the same cost line
    under either, for each party: the line is the unit-cost formula, which
    does not mention the package.  Holds on every carrier with guarded
    division. *)
Theorem shared_service_cost_same_across_packages {num : Type} {N : Number num}
    {L : GuardedDivision num}
    (input : MerchantInput.t num) (p1 p2 : PackageType) (s : ServiceType.t) :
  includes (PackageConfig.services (PACKAGE_SERVICES p1)) s = true ->
  includes (PackageConfig.services (PACKAGE_SERVICES p2)) s = true ->
  exists r1 r2,
    calculateSavings input p1 = Returned r1
    /\ calculateSavings input p2 = Returned r2
    /\ Cost.line (CostComparisonResult.merchantCost r1) s
         = Cost.line (CostComparisonResult.merchantCost r2) s
    /\ Cost.line (CostComparisonResult.rootsCost r1) s
         = Cost.line (CostComparisonResult.rootsCost r2) s
    /\ Cost.line (CostComparisonResult.merchantCost r1) s
         = Spec.merchantCost (getAssumptions tt) input s
    /\ Cost.line (CostComparisonResult.rootsCost r1) s
         = Spec.alternateCost (getAssumptions tt) input s.
Proof.
  intros H1 H2. rewrite PACKAGE_SERVICES_included in H1, H2.
  destruct (calculateSavings_returns input p1) as [r1 Hr1].
  destruct (calculateSavings_returns input p2) as [r2 Hr2].
  exists r1, r2. do 2 (split; [assumption|]).
  destruct (calculateSavings_inv _ _ Hr1) as (Hm1 & Hc1 & _).
  destruct (calculateSavings_inv _ _ Hr2) as (Hm2 & Hc2 & _).
  rewrite Hm1, Hc1, Hm2, Hc2. unfold Spec.partyCost. rewrite H1, H2.
  repeat split; reflexivity.
Qed.

Lemma shared_service_cost_same_across_packages_witness :
  includes (PackageConfig.services (PACKAGE_SERVICES store_pack))
           ServiceType.handlingOut = true
  /\ includes (PackageConfig.services (PACKAGE_SERVICES sort_pack))
              ServiceType.handlingOut = true
  /\ exists r1 r2,
       calculateSavings (num:=Q) scenario store_pack = Returned r1
       /\ calculateSavings (num:=Q) scenario sort_pack = Returned r2
       /\ Cost.line (CostComparisonResult.merchantCost r1) ServiceType.handlingOut
            = Cost.line (CostComparisonResult.merchantCost r2) ServiceType.handlingOut
       /\ Cost.line (CostComparisonResult.rootsCost r1) ServiceType.handlingOut
            = Cost.line (CostComparisonResult.rootsCost r2) ServiceType.handlingOut
       /\ Cost.line (CostComparisonResult.merchantCost r1) ServiceType.handlingOut
            = Spec.merchantCost (getAssumptions tt) scenario ServiceType.handlingOut
       /\ Cost.line (CostComparisonResult.rootsCost r1) ServiceType.handlingOut
            = Spec.alternateCost (getAssumptions tt) scenario ServiceType.handlingOut.
Proof.
  do 2 (split; [reflexivity|]).
  apply (shared_service_cost_same_across_packages
           scenario store_pack sort_pack ServiceType.handlingOut);
    reflexivity.
Defined.

(** ** Exact arithmetic *)

Lemma eq_Qeq (x y : Q) : x = y -> (x == y)%Q.
Proof. intros ->. reflexivity. Qed.

Lemma Qdiv_checked_inv (x y q : Q) :
  Qdiv_checked x y = Returned q -> q = (x / y)%Q /\ ~ (y == 0)%Q.
Proof.
  unfold Qdiv_checked. destruct (Qeq_bool y 0) eqn:E; [discriminate|].
  intro H. injection H as <-. split; [reflexivity|].
  apply Qeq_bool_neq. exact E.
Qed.

(** Runs the engine on rationals and names what the result holds. *)
Ltac run_exact input pkg r :=
  let Hr := fresh "Hr" in
  let H := fresh "H" in
  destruct (calculateSavings_returns input pkg) as [r Hr];
  pose proof (calculateSavings_inv _ _ Hr) as H;
  cbv zeta in H;
  destruct H as (?Hm & ?Hc & ?Hmo & ?Hmt & ?Hco & ?Hct & ?Hsm & ?Hsy & ?Hpc & ?Hp0 & ?Hpq);
  exists r; split; [exact Hr|].

Ltac lines Hm :=
  let H1 := fresh Hm "_storage" in
  let H2 := fresh Hm "_in" in
  let H3 := fresh Hm "_out" in
  let H4 := fresh Hm "_delivery" in
  pose proof (eq_Qeq (Hm ServiceType.storage)) as H1;
  pose proof (eq_Qeq (Hm ServiceType.handlingIn)) as H2;
  pose proof (eq_Qeq (Hm ServiceType.handlingOut)) as H3;
  pose proof (eq_Qeq (Hm ServiceType.delivery)) as H4;
  clear Hm.

Section Exact.

Local Open Scope Q_scope.

(** C2: the merchant's total is the sum of the merchant's included-service
    costs plus the merchant's overhead, that overhead being the sum times
    [merchantOverheadRate]; the alternate's total is the sum of its
    included-service costs plus its overhead, which is the constant
    [rootsOverhead] of the table.  For every input, non-negative or not. *)
Theorem totals_are_included_costs_plus_overhead
    (input : MerchantInput.t Q) (pkg : PackageType) :
  exists r,
    calculateSavings input pkg = Returned r
    /\ let services := PackageConfig.services (PACKAGE_SERVICES pkg) in
       let a := getAssumptions (num:=Q) tt in
       let m := CostComparisonResult.merchantCost r in
       let c := CostComparisonResult.rootsCost r in
       Cost.overhead m
         == sumIncluded services m
            * OverheadAssumptions.merchantOverheadRate (Assumptions.overhead a)
       /\ Cost.total m == sumIncluded services m + Cost.overhead m
       /\ Cost.overhead c = OverheadAssumptions.rootsOverhead (Assumptions.overhead a)
       /\ Cost.total c == sumIncluded services c + Cost.overhead c.
Proof.
  run_exact input pkg r. lines Hm. lines Hc.
  apply eq_Qeq in Hmo, Hmt, Hct.
  destruct pkg; cbn in *; repeat split; try exact Hco; lra.
Qed.

(** C3: monthly savings are the merchant's total minus the alternate's,
    and yearly savings are exactly twelve times the monthly savings. *)
Theorem savings_block_definition (input : MerchantInput.t Q) (pkg : PackageType) :
  exists r,
    calculateSavings input pkg = Returned r
    /\ let m := CostComparisonResult.merchantCost r in
       let c := CostComparisonResult.rootsCost r in
       let v := CostComparisonResult.savings r in
       Savings.monthly v == Cost.total m - Cost.total c
       /\ Savings.yearly v == 12 * Savings.monthly v.
Proof.
  run_exact input pkg r.
  apply eq_Qeq in Hsm, Hsy. cbn in *. split; lra.
Qed.

(** C4: the engine returns on every input, so the division is never taken
    with a zero divisor; the percentage is 0 when the merchant's total is
    0, and [100 * monthlySavings / merchantTotal] when the total is
    positive. *)
Theorem savings_percentage_guarded (input : MerchantInput.t Q) (pkg : PackageType) :
  exists r,
    calculateSavings input pkg = Returned r
    /\ let m := CostComparisonResult.merchantCost r in
       let v := CostComparisonResult.savings r in
       (Cost.total m == 0 -> Savings.percentage v == 0)
       /\ (0 < Cost.total m ->
           Savings.percentage v == 100 * Savings.monthly v / Cost.total m).
Proof.
  run_exact input pkg r. cbn in Hp0, Hpq |- *. split.
  - intro Hz. rewrite Hp0; [reflexivity|].
    apply Qgt_bool_false_iff. rewrite Hz. apply Qle_refl.
  - intro Hpos. destruct Hpq as (q & Hq & ->).
    + apply Qgt_bool_iff. exact Hpos.
    + apply Qdiv_checked_inv in Hq. destruct Hq as [-> Hnz].
      field. exact Hnz.
Qed.

Lemma savings_percentage_guarded_witness :
  (exists r,
     calculateSavings (num:=Q) scenario fulfillment = Returned r
     /\ 0 < Cost.total (CostComparisonResult.merchantCost r)
     /\ Savings.percentage (CostComparisonResult.savings r)
          == 100 * Savings.monthly (CostComparisonResult.savings r)
               / Cost.total (CostComparisonResult.merchantCost r))
  /\ (exists r,
        calculateSavings (num:=Q) (mkInput 0 0 0) fulfillment = Returned r
        /\ Cost.total (CostComparisonResult.merchantCost r) == 0
        /\ Savings.percentage (CostComparisonResult.savings r) == 0).
Proof.
  split.
  - destruct (savings_percentage_guarded scenario fulfillment) as (r & Hr & _ & Hpos).
    exists r. split; [exact Hr|].
    assert (Ht : 0 < Cost.total (CostComparisonResult.merchantCost r)).
    { vm_compute in Hr. injection Hr as <-. reflexivity. }
    split; [exact Ht | exact (Hpos Ht)].
  - destruct (savings_percentage_guarded (mkInput 0 0 0) fulfillment) as (r & Hr & Hz & _).
    exists r. split; [exact Hr|].
    assert (Ht : Cost.total (CostComparisonResult.merchantCost r) == 0).
    { vm_compute in Hr. injection Hr as <-. reflexivity. }
    split; [exact Ht | exact (Hz Ht)].
Defined.

(** C7: under the default table, raising [ordersPerMonth] with the
    warehouse size and the items per order held fixed lowers neither the
    handling-out cost nor the delivery cost, for either party.  For every
    input, non-negative or not. *)
Theorem more_orders_never_cost_less (w k o o' : Q) (pkg : PackageType) :
  o <= o' ->
  exists r r',
    calculateSavings
      {| MerchantInput.warehouseSize := w;
         MerchantInput.ordersPerMonth := o;
         MerchantInput.averageItemsPerOrder := k |} pkg = Returned r
    /\ calculateSavings
         {| MerchantInput.warehouseSize := w;
            MerchantInput.ordersPerMonth := o';
            MerchantInput.averageItemsPerOrder := k |} pkg = Returned r'
    /\ Cost.handlingOut (CostComparisonResult.merchantCost r)
         <= Cost.handlingOut (CostComparisonResult.merchantCost r')
    /\ Cost.delivery (CostComparisonResult.merchantCost r)
         <= Cost.delivery (CostComparisonResult.merchantCost r')
    /\ Cost.handlingOut (CostComparisonResult.rootsCost r)
         <= Cost.handlingOut (CostComparisonResult.rootsCost r')
    /\ Cost.delivery (CostComparisonResult.rootsCost r)
         <= Cost.delivery (CostComparisonResult.rootsCost r').
Proof.
  intro Hle.
  set (i := MerchantInput.mk w o k). set (i' := MerchantInput.mk w o' k).
  destruct (calculateSavings_returns i pkg) as [r Hr].
  destruct (calculateSavings_returns i' pkg) as [r' Hr'].
  exists r, r'. do 2 (split; [assumption|]).
  destruct (calculateSavings_inv _ _ Hr) as (Hm & Hc & _).
  destruct (calculateSavings_inv _ _ Hr') as (Hm' & Hc' & _).
  lines Hm. lines Hc. lines Hm'. lines Hc'.
  destruct pkg; cbn in *; repeat split; lra.
Qed.

Lemma more_orders_never_cost_less_witness :
  1000 <= 1500
  /\ exists r r',
       calculateSavings (num:=Q) (MerchantInput.mk 500 1000 2) sort_pack = Returned r
       /\ calculateSavings (num:=Q) (MerchantInput.mk 500 1500 2) sort_pack = Returned r'
       /\ Cost.handlingOut (CostComparisonResult.merchantCost r)
            <= Cost.handlingOut (CostComparisonResult.merchantCost r')
       /\ Cost.delivery (CostComparisonResult.merchantCost r)
            <= Cost.delivery (CostComparisonResult.merchantCost r')
       /\ Cost.handlingOut (CostComparisonResult.rootsCost r)
            <= Cost.handlingOut (CostComparisonResult.rootsCost r')
       /\ Cost.delivery (CostComparisonResult.rootsCost r)
            <= Cost.delivery (CostComparisonResult.rootsCost r').
Proof.
  assert (H : 1000 <= 1500) by (unfold Qle; simpl; lia).
  split; [exact H|].
  exact (more_orders_never_cost_less 500 2 sort_pack H).
Defined.



End Exact.


(** Up to the cap the doubles agree with the amended statement: on the
    729 inputs made of [probeVolumesFromZero] and the 4913 made of
    [probeVolumes], for every package. *)
Lemma savings_never_negative_binary64_probes :
  forallb (fun input => forallb (neverNegativeAt input) allPackages)
          (probeInputs probeVolumesFromZero ++ probeInputs probeVolumes) = true.
Proof. vm_compute. reflexivity. Qed.

(** ** The documented scenario *)

(** C5: warehouse size 500, 1000 orders a month, 2 items per order, the
    fulfillment package and the default table give merchant storage 7500,
    alternate storage 6000, merchant handling-in 2000, alternate
    handling-in 850, merchant handling-out 2500, alternate handling-out
    1275, merchant delivery 2200, alternate delivery 2000, merchant
    overhead 2840, merchant total 17040, alternate overhead 0, alternate
    total 10125, monthly savings 6915, yearly savings 82980 and a savings
    percentage that rounds to 40.58: in exact arithmetic, and figure for
    figure in binary64 (where the percentage is bracketed by the doubles
    40 + 37/64 and 40 + 149/256). *)
Theorem scenario_figures :
  (exists r,
     calculateSavings (num:=Q) scenario fulfillment = Returned r
     /\ let m := CostComparisonResult.merchantCost r in
        let c := CostComparisonResult.rootsCost r in
        let v := CostComparisonResult.savings r in
        (Cost.storage m == 7500 /\ Cost.storage c == 6000
         /\ Cost.handlingIn m == 2000 /\ Cost.handlingIn c == 850
         /\ Cost.handlingOut m == 2500 /\ Cost.handlingOut c == 1275
         /\ Cost.delivery m == 2200 /\ Cost.delivery c == 2000
         /\ Cost.overhead m == 2840 /\ Cost.total m == 17040
         /\ Cost.overhead c == 0 /\ Cost.total c == 10125
         /\ Savings.monthly v == 6915 /\ Savings.yearly v == 82980
         /\ 40.575 <= Savings.percentage v /\ Savings.percentage v < 40.585)%Q)
  /\ (exists r,
        calculateSavings (num:=float) scenario fulfillment = Returned r
        /\ let m := CostComparisonResult.merchantCost r in
           let c := CostComparisonResult.rootsCost r in
           let v := CostComparisonResult.savings r in
           (Cost.storage m = 7500 /\ Cost.storage c = 6000
            /\ Cost.handlingIn m = 2000 /\ Cost.handlingIn c = 850
            /\ Cost.handlingOut m = 2500 /\ Cost.handlingOut c = 1275
            /\ Cost.delivery m = 2200 /\ Cost.delivery c = 2000
            /\ Cost.overhead m = 2840 /\ Cost.total m = 17040
            /\ Cost.overhead c = 0 /\ Cost.total c = 10125
            /\ Savings.monthly v = 6915 /\ Savings.yearly v = 82980
            /\ (40.578125 <=? Savings.percentage v) = true
            /\ (Savings.percentage v <? 40.58203125) = true)%float).
Proof.
  split.
  - eexists. split; [vm_compute; reflexivity|].
    cbv zeta. repeat split; vm_compute; congruence.
  - eexists. split; [vm_compute; reflexivity|].
    cbv zeta. repeat split; vm_compute; reflexivity.
Qed.

(** ** Where the table comes from *)

(** C9, as stated, fails: the engine does not follow a table handed to the
    computation.  With the storage price doubled the contract charges the
    merchant 15000 for storage; the engine, which has no table argument
    and reads [getAssumptions ()], still charges 7500. *)
Lemma table_is_not_injected :
  (exists r,
     Spec.computeSavings (num:=Q) scenario fulfillment doubledStoragePrice = Returned r
     /\ (Cost.storage (CostComparisonResult.merchantCost r) == 15000)%Q)
  /\ (exists r,
        calculateSavings (num:=Q) scenario fulfillment = Returned r
        /\ (Cost.storage (CostComparisonResult.merchantCost r) == 7500)%Q)
  /\ calculateSavings (num:=Q) scenario fulfillment
       <> Spec.computeSavings scenario fulfillment doubledStoragePrice.
Proof.
  split; [|split].
  - eexists. split; [vm_compute; reflexivity|]. vm_compute. reflexivity.
  - eexists. split; [vm_compute; reflexivity|]. vm_compute. reflexivity.
  - vm_compute. intro H. discriminate H.
Qed.

(** C9, amended: the savings computation takes the input and the package
    and no table.  It reads the table through [getAssumptions ()], which
    hands out the module-level object [DEFAULT_ASSUMPTIONS] itself, so
    its result is the contract's at whatever that object holds when the
    call is made, for every state of the module, and it never fails.
    Holds on every carrier with guarded division. *)
Theorem engine_follows_module_table {num : Type} {N : Number num}
    {L : GuardedDivision num}
    (m : AssumptionsModule.t num) (input : MerchantInput.t num)
    (pkg : PackageType) :
  calculateSavings_in m input pkg
    = Spec.computeSavings input pkg (AssumptionsModule.DEFAULT_ASSUMPTIONS m)
  /\ exists r, calculateSavings_in m input pkg = Returned r.
Proof.
  assert (E : calculateSavings_in m input pkg
              = Spec.computeSavings input pkg
                  (AssumptionsModule.DEFAULT_ASSUMPTIONS m))
    by (destruct pkg; reflexivity).
  split; [exact E|]. rewrite E. unfold Spec.computeSavings.
  match goal with
  | |- context [gt ?t (lit 0)] => destruct (gt t (lit 0)) eqn:G
  end.
  - match type of G with
    | gt ?t _ = true =>
        match goal with
        | |- context [div ?x t] => destruct (div_guarded x t G) as [q Hq]; rewrite Hq
        end
    end.
    eexists. reflexivity.
  - eexists. reflexivity.
Qed.

(** The engine of the claims is the engine in the state the module is
    loaded in. *)
Lemma calculateSavings_in_loaded {num : Type} {N : Number num}
    (input : MerchantInput.t num) (pkg : PackageType) :
  calculateSavings_in loaded input pkg = calculateSavings input pkg.
Proof. reflexivity. Qed.

(** After [DEFAULT_ASSUMPTIONS.storage.costPerSqm = 24] the same call
    charges the merchant 15000 for storage, where it charged 7500. *)
Lemma engine_follows_module_table_witness :
  GuardedDivision Q
  /\ calculateSavings_in (assignCostPerSqm 24%Q loaded) scenario fulfillment
       = Spec.computeSavings scenario fulfillment doubledStoragePrice
  /\ (exists r,
        calculateSavings_in (assignCostPerSqm 24%Q loaded) scenario fulfillment
          = Returned r
        /\ (Cost.storage (CostComparisonResult.merchantCost r) == 15000)%Q)
  /\ (exists r,
        calculateSavings_in (num:=Q) loaded scenario fulfillment = Returned r
        /\ (Cost.storage (CostComparisonResult.merchantCost r) == 7500)%Q).
Proof.
  split; [exact GuardedDivision_Q|].
  destruct (engine_follows_module_table (L:=GuardedDivision_Q)
              (assignCostPerSqm 24%Q loaded) scenario fulfillment) as [E [r Hr]].
  split; [exact E|]. split.
  - exists r. split; [exact Hr|].
    vm_compute in Hr. injection Hr as <-. reflexivity.
  - destruct (engine_follows_module_table (L:=GuardedDivision_Q)
                loaded scenario fulfillment) as [_ [r0 Hr0]].
    exists r0. split; [exact Hr0|].
    vm_compute in Hr0. injection Hr0 as <-. reflexivity.
Defined.

(** * Beyond the engine: the breakdown and the form *)

Section BreakdownAnyCarrier.

Context {num : Type} {N : Number num} {L : GuardedDivision num}.

Local Open Scope js_scope.

Lemma detailRow_returns (item : ChartItem.t num) :
  exists row,
    detailRow item = Returned row
    /\ DetailRow.item row = item
    /\ DetailRow.savings row = ChartItem.Your_Cost item - ChartItem.Roots_Cost item.
Proof.
  unfold detailRow.
  destruct (gt (ChartItem.Your_Cost item) (lit 0)) eqn:G.
  - destruct (div_guarded (ChartItem.Your_Cost item - ChartItem.Roots_Cost item)
                          (ChartItem.Your_Cost item) G) as [q Hq].
    rewrite Hq. eexists. split; [reflexivity|]. split; reflexivity.
  - eexists. split; [reflexivity|]. split; reflexivity.
Qed.

Lemma mapM_detailRow_returns (l : list (ChartItem.t num)) :
  exists rows,
    mapM detailRow l = Returned rows
    /\ map (@DetailRow.item num) rows = l
    /\ Forall (fun row =>
                 DetailRow.savings row
                   = ChartItem.Your_Cost (DetailRow.item row)
                     - ChartItem.Roots_Cost (DetailRow.item row)) rows.
Proof.
  induction l as [|a l IH].
  - exists []. repeat split. constructor.
  - destruct (detailRow_returns a) as (row & Hrow & Hitem & Hsav).
    destruct IH as (rows & Hrows & Hmap & Hall).
    exists (row :: rows). cbn [mapM]. rewrite Hrow. cbn [bind]. rewrite Hrows.
    cbn [bind map]. split; [reflexivity|]. split.
    + rewrite Hitem, Hmap. reflexivity.
    + constructor; [rewrite Hitem; exact Hsav | exact Hall].
Qed.

Lemma chartData_follows_services (pkg : PackageType) (r : CostComparisonResult.t num) :
  CostComparisonResult.packageConfig r = PACKAGE_SERVICES pkg ->
  chartData r
    = map (fun s =>
             {| ChartItem.name := chartLabel s;
                ChartItem.Your_Cost := Cost.line (CostComparisonResult.merchantCost r) s;
                ChartItem.Roots_Cost := Cost.line (CostComparisonResult.rootsCost r) s |})
          (PackageConfig.services (PACKAGE_SERVICES pkg)).
Proof.
  intro Hpc. unfold chartData. rewrite Hpc. destruct pkg; reflexivity.
Qed.

Lemma ServiceBreakdown_returns (pkg : PackageType) (input : MerchantInput.t num) :
  exists r rows,
    calculateSavings input pkg = Returned r
    /\ mapM detailRow (chartData r) = Returned rows
    /\ ServiceBreakdown pkg input
         = Returned {| Breakdown.results := r;
                       Breakdown.chartData := chartData r;
                       Breakdown.rows := rows |}.
Proof.
  destruct (calculateSavings_returns input pkg) as [r Hr].
  destruct (mapM_detailRow_returns (chartData r)) as (rows & Hrows & _).
  exists r, rows. split; [exact Hr|]. split; [exact Hrows|].
  unfold ServiceBreakdown. rewrite Hr. cbn [bind]. rewrite Hrows. reflexivity.
Qed.

End BreakdownAnyCarrier.

(** X1: the breakdown of a package never fails, on any input: the engine
    returns and so does every row of the detailed analysis.  The chart has
    one entry per service of the package, in the package's order, named
    after the service and carrying the engine's two cost lines for it; the
    analysis has one row per chart entry, whose savings are the entry's
    cost minus the alternate's.  Holds on every carrier with guarded
    division. *)
Theorem breakdown_has_one_row_per_service {num : Type} {N : Number num}
    {L : GuardedDivision num}
    (pkg : PackageType) (input : MerchantInput.t num) :
  exists b r,
    ServiceBreakdown pkg input = Returned b
    /\ calculateSavings input pkg = Returned r
    /\ Breakdown.results b = r
    /\ Breakdown.chartData b
         = map (fun s =>
                  {| ChartItem.name := chartLabel s;
                     ChartItem.Your_Cost := Cost.line (CostComparisonResult.merchantCost r) s;
                     ChartItem.Roots_Cost := Cost.line (CostComparisonResult.rootsCost r) s |})
               (PackageConfig.services (PACKAGE_SERVICES pkg))
    /\ map (@DetailRow.item num) (Breakdown.rows b) = Breakdown.chartData b
    /\ Forall (fun row =>
                 DetailRow.savings row
                   = sub (ChartItem.Your_Cost (DetailRow.item row))
                         (ChartItem.Roots_Cost (DetailRow.item row)))
              (Breakdown.rows b).
Proof.
  destruct (calculateSavings_returns input pkg) as [r Hr].
  destruct (mapM_detailRow_returns (chartData r)) as (rows & Hrows & Hmap & Hall).
  exists {| Breakdown.results := r; Breakdown.chartData := chartData r;
            Breakdown.rows := rows |}, r.
  split.
  { unfold ServiceBreakdown. rewrite Hr. cbn [bind]. rewrite Hrows. reflexivity. }
  split; [exact Hr|]. split; [reflexivity|]. cbn.
  split; [|split; assumption].
  apply chartData_follows_services.
  destruct (calculateSavings_inv _ _ Hr) as (_ & _ & _ & _ & _ & _ & _ & _ & Hpc & _).
  exact Hpc.
Qed.

Lemma breakdown_has_one_row_per_service_witness :
  GuardedDivision float
  /\ exists b r,
       ServiceBreakdown (num:=float) store_pack scenario = Returned b
       /\ calculateSavings scenario store_pack = Returned r
       /\ Breakdown.results b = r
       /\ map (@ChartItem.name float) (Breakdown.chartData b)
            = ["Storage"; "Handling In"; "Handling Out"]%string
       /\ map (@DetailRow.item float) (Breakdown.rows b) = Breakdown.chartData b.
Proof.
  split; [exact GuardedDivision_float|].
  destruct (breakdown_has_one_row_per_service (L:=GuardedDivision_float)
              store_pack scenario) as (b & r & Hb & Hr & Hres & Hchart & Hrows & _).
  exists b, r. do 3 (split; [assumption|]). split; [|exact Hrows].
  rewrite Hchart. reflexivity.
Defined.

(** ** The form *)

Section FormAnyCarrier.

Context {num : Type} {N : Number num}.

Variable parseFloat : string -> option num.

Local Open Scope js_scope.

Lemma initialState_shownOnlyIfPositive : shownOnlyIfPositive initialState.
Proof. intro H. discriminate H. Qed.

Lemma handle_shownOnlyIfPositive (state : CalculatorState.t num) (e : CalculatorEvent) :
  shownOnlyIfPositive state -> shownOnlyIfPositive (handle parseFloat state e).
Proof.
  intro Inv. destruct e as [|field value]; cbn [handle].
  - unfold handleCalculate.
    destruct (gt (MerchantInput.warehouseSize (CalculatorState.input state)) (lit 0)) eqn:Gw;
      cbn [andb]; [|exact Inv].
    destruct (gt (MerchantInput.ordersPerMonth (CalculatorState.input state)) (lit 0)) eqn:Go;
      cbn [andb]; [|exact Inv].
    destruct (gt (MerchantInput.averageItemsPerOrder (CalculatorState.input state)) (lit 0)) eqn:Gk;
      [|exact Inv].
    intros _. cbn. repeat split; assumption.
  - intro H. discriminate H.
Qed.

Lemma fold_handle_shownOnlyIfPositive (events : list CalculatorEvent) :
  forall state,
    shownOnlyIfPositive state ->
    shownOnlyIfPositive (fold_left (handle parseFloat) events state).
Proof.
  induction events as [|e events IH]; intros state Inv; cbn [fold_left].
  - exact Inv.
  - apply IH. apply handle_shownOnlyIfPositive. exact Inv.
Qed.

Lemma session_shownOnlyIfPositive (events : list CalculatorEvent) :
  shownOnlyIfPositive (session parseFloat events).
Proof.
  apply fold_handle_shownOnlyIfPositive. apply initialState_shownOnlyIfPositive.
Qed.

Lemma handleCalculate_refuses (state : CalculatorState.t num) (field : Field.t) :
  CalculatorState.showResults state = false ->
  (match field with
   | Field.warehouseSize => MerchantInput.warehouseSize (CalculatorState.input state)
   | Field.ordersPerMonth => MerchantInput.ordersPerMonth (CalculatorState.input state)
   | Field.averageItemsPerOrder =>
       MerchantInput.averageItemsPerOrder (CalculatorState.input state)
   end >? lit 0) = false ->
  CalculatorState.showResults (handleCalculate state) = false.
Proof.
  intros Hhidden Hfield. unfold handleCalculate.
  destruct field; rewrite Hfield;
    rewrite ?andb_false_r; cbn [andb]; exact Hhidden.
Qed.

End FormAnyCarrier.

(** X2: whatever the user types and clicks, from the first render on, the
    results are on display only while all three fields of the input are
    greater than zero.  Holds on every carrier and for every behaviour of
    [parseFloat]. *)
Theorem results_shown_only_over_positive_input {num : Type} {N : Number num}
    (parseFloat : string -> option num) (events : list CalculatorEvent) :
  CalculatorState.showResults (session parseFloat events) = true ->
  gt (MerchantInput.warehouseSize
        (CalculatorState.input (session parseFloat events))) (lit 0) = true
  /\ gt (MerchantInput.ordersPerMonth
           (CalculatorState.input (session parseFloat events))) (lit 0) = true
  /\ gt (MerchantInput.averageItemsPerOrder
           (CalculatorState.input (session parseFloat events))) (lit 0) = true.
Proof.
  intro Hshown.
  destruct (session_shownOnlyIfPositive parseFloat events Hshown) as (Hw & Ho & Hk).
  split; [exact Hw|]. split; [exact Ho | exact Hk].
Qed.

(** X3: a text that does not parse to a number greater than zero (empty,
    not a number, zero, negative) in any one field keeps the results
    hidden when Calculate is clicked next, whatever the other two fields
    hold.  Needs only that the carrier does not rank 0 above 0. *)
Theorem unusable_text_blocks_calculate {num : Type} {N : Number num}
    (parseFloat : string -> option num)
    (state : CalculatorState.t num) (field : Field.t) (value : string) :
  gt (lit 0) (lit 0) = false ->
  (forall v, parseFloat value = Some v -> gt v (lit 0) = false) ->
  CalculatorState.showResults
    (handleCalculate (handleInputChange parseFloat field value state)) = false.
Proof.
  intros H0 Hv. apply handleCalculate_refuses with (field := field); [reflexivity|].
  unfold handleInputChange. cbn [CalculatorState.input].
  assert (Hnum : gt (match parseFloat value with
                     | Some v => if truthy v then v else lit 0
                     | None => lit 0
                     end) (lit 0) = false).
  { destruct (parseFloat value) as [v|] eqn:E; [|exact H0].
    destruct (truthy v); [exact (Hv v eq_refl) | exact H0]. }
  destruct field; exact Hnum.
Qed.

Lemma results_shown_only_over_positive_input_witness :
  CalculatorState.showResults
    (session parseFloat_sample
       [ChangeInput Field.warehouseSize "500";
        ChangeInput Field.ordersPerMonth "1000";
        ClickCalculate;
        ChangeInput Field.averageItemsPerOrder "2";
        ClickCalculate]) = true
  /\ CalculatorState.input
       (session parseFloat_sample
          [ChangeInput Field.warehouseSize "500";
           ChangeInput Field.ordersPerMonth "1000";
           ClickCalculate;
           ChangeInput Field.averageItemsPerOrder "2";
           ClickCalculate]) = scenario
  /\ gt (MerchantInput.warehouseSize (num:=Q) scenario) (lit 0) = true
  /\ gt (MerchantInput.ordersPerMonth (num:=Q) scenario) (lit 0) = true
  /\ gt (MerchantInput.averageItemsPerOrder (num:=Q) scenario) (lit 0) = true.
Proof.
  assert (Hshown :
    CalculatorState.showResults
      (session parseFloat_sample
         [ChangeInput Field.warehouseSize "500";
          ChangeInput Field.ordersPerMonth "1000";
          ClickCalculate;
          ChangeInput Field.averageItemsPerOrder "2";
          ClickCalculate]) = true) by reflexivity.
  split; [exact Hshown|]. split; [reflexivity|].
  exact (results_shown_only_over_positive_input parseFloat_sample _ Hshown).
Defined.

Lemma unusable_text_blocks_calculate_witness :
  gt (num:=Q) (lit 0) (lit 0) = false
  /\ (forall v, parseFloat_sample "-3" = Some v -> gt v (lit 0) = false)
  /\ CalculatorState.showResults
       (handleCalculate
          (handleInputChange parseFloat_sample Field.ordersPerMonth "-3"
             {| CalculatorState.input := scenario;
                CalculatorState.showResults := true |})) = false.
Proof.
  assert (H0 : gt (num:=Q) (lit 0) (lit 0) = false) by reflexivity.
  assert (Hv : forall v, parseFloat_sample "-3" = Some v -> gt v (lit 0) = false).
  { intros v Hv. vm_compute in Hv. injection Hv as <-. reflexivity. }
  split; [exact H0|]. split; [exact Hv|].
  exact (unusable_text_blocks_calculate parseFloat_sample
           {| CalculatorState.input := scenario; CalculatorState.showResults := true |}
           Field.ordersPerMonth "-3" H0 Hv).
Defined.

(** ** The breakdown in exact arithmetic *)

Ltac step_rows H :=
  repeat match type of H with
         | context [bind (detailRow ?i) _] =>
             let E := fresh "Erow" in
             destruct (detailRow i) as [?row|] eqn:E; cbn [bind] in H; [|discriminate H]
         end;
  injection H as <-.

Section BreakdownExact.

Local Open Scope Q_scope.

Lemma detailRow_inv_Q (item : ChartItem.t Q) (row : DetailRow.t Q) :
  detailRow item = Returned row ->
  DetailRow.item row = item
  /\ DetailRow.savings row = ChartItem.Your_Cost item - ChartItem.Roots_Cost item
  /\ (0 < ChartItem.Your_Cost item ->
      DetailRow.savingsPercentage row
        == 100 * (ChartItem.Your_Cost item - ChartItem.Roots_Cost item)
             / ChartItem.Your_Cost item)
  /\ (ChartItem.Your_Cost item <= 0 -> DetailRow.savingsPercentage row = 0).
Proof.
  unfold detailRow. cbn.
  destruct (Qgt_bool (ChartItem.Your_Cost item) 0) eqn:G.
  - destruct (Qdiv_checked (ChartItem.Your_Cost item - ChartItem.Roots_Cost item)
                           (ChartItem.Your_Cost item)) as [q|] eqn:Hq; [|discriminate].
    cbn. intro H. injection H as <-. cbn.
    apply Qgt_bool_iff in G. apply Qdiv_checked_inv in Hq. destruct Hq as [-> Hnz].
    repeat split.
    + intros _. field. exact Hnz.
    + intro Hle. exfalso. apply (Qlt_not_le _ _ G Hle).
  - cbn. intro H. injection H as <-. cbn.
    apply Qgt_bool_false_iff in G.
    repeat split.
    intro Hpos. exfalso. apply (Qlt_not_le _ _ Hpos G).
Qed.

Lemma detailRow_percent (item : ChartItem.t Q) (row : DetailRow.t Q) (p : Q) :
  detailRow item = Returned row ->
  0 < ChartItem.Your_Cost item ->
  ChartItem.Roots_Cost item < ChartItem.Your_Cost item ->
  ChartItem.Roots_Cost item * 100 == (100 - p) * ChartItem.Your_Cost item ->
  ChartItem.name (DetailRow.item row) = ChartItem.name item
  /\ 0 < DetailRow.savings row
  /\ DetailRow.savingsPercentage row == p.
Proof.
  intros Hrow Hpos Hlt Hp.
  apply detailRow_inv_Q in Hrow. destruct Hrow as (-> & -> & Hpct & _).
  split; [reflexivity|]. split; [lra|].
  rewrite (Hpct Hpos).
  apply Qmult_inj_r with (z := ChartItem.Your_Cost item); [lra|].
  field_simplify; [lra | lra].
Qed.

Lemma detailRow_nothing (item : ChartItem.t Q) (row : DetailRow.t Q) :
  detailRow item = Returned row ->
  ChartItem.Your_Cost item == 0 ->
  ChartItem.Roots_Cost item == 0 ->
  DetailRow.savings row == 0 /\ DetailRow.savingsPercentage row == 0.
Proof.
  intros Hrow Hy Hr.
  apply detailRow_inv_Q in Hrow. destruct Hrow as (_ & -> & _ & Hzero).
  split; [lra|]. rewrite Hzero; [reflexivity | lra].
Qed.

Lemma volumeFloor_positive : 0 < volumeFloor.
Proof. vm_compute. reflexivity. Qed.



Lemma positive_input_positive_savings (pkg : PackageType) (input : MerchantInput.t Q) :
  0 < MerchantInput.warehouseSize input ->
  0 < MerchantInput.ordersPerMonth input ->
  0 < MerchantInput.averageItemsPerOrder input ->
  exists r,
    calculateSavings input pkg = Returned r
    /\ 0 < Cost.total (CostComparisonResult.rootsCost r)
    /\ Cost.total (CostComparisonResult.rootsCost r)
         < Cost.total (CostComparisonResult.merchantCost r)
    /\ 0 < Savings.monthly (CostComparisonResult.savings r)
    /\ 0 < Savings.percentage (CostComparisonResult.savings r)
    /\ Savings.percentage (CostComparisonResult.savings r) < 100.
Proof.
  intros Hw Ho Hk.
  destruct (calculateSavings_returns input pkg) as [r Hr].
  pose proof (calculateSavings_inv _ _ Hr) as H. cbv zeta in H.
  destruct H as (Hm & Hc & Hmo & Hmt & Hco & Hct & Hsm & Hsy & Hpc & Hp0 & Hpq).
  exists r. split; [exact Hr|].
  lines Hm. lines Hc. apply eq_Qeq in Hmo, Hmt, Hco, Hct, Hsm.
  pose proof (Qmult_lt_0_compat _ _ Ho Hk) as Ht.
  unfold Spec.partyCost, Spec.merchantCost, Spec.alternateCost, Spec.totalItems in *.
  set (t := (MerchantInput.ordersPerMonth input
             * MerchantInput.averageItemsPerOrder input)%js) in *.
  change (0 < t) in Ht. clearbody t.
  assert (Hroots : 0 < Cost.total (CostComparisonResult.rootsCost r)).
  { destruct pkg; cbn in *; lra. }
  assert (Hlt : Cost.total (CostComparisonResult.rootsCost r)
                < Cost.total (CostComparisonResult.merchantCost r)).
  { destruct pkg; cbn in *; lra. }
  cbn in Hsm, Hp0, Hpq.
  split; [exact Hroots|]. split; [exact Hlt|]. split; [lra|].
  destruct Hpq as (q & Hq & ->).
  { apply Qgt_bool_iff. lra. }
  apply Qdiv_checked_inv in Hq. destruct Hq as [-> _].
  assert (H0 : 0 < Savings.monthly (CostComparisonResult.savings r)
                   / Cost.total (CostComparisonResult.merchantCost r)).
  { apply Qlt_shift_div_l; lra. }
  assert (H1 : Savings.monthly (CostComparisonResult.savings r)
                 / Cost.total (CostComparisonResult.merchantCost r) < 1).
  { apply Qlt_shift_div_r; lra. }
  cbn. split; lra.
Qed.


Lemma parseFloat_sample_in_range (value : string) (x : Q) :
  parseFloat_sample value = Some x -> 0 < x -> volumeFloor <= x /\ x <= volumeCap.
Proof.
  unfold parseFloat_sample.
  destruct (String.eqb value "500");
    [intro H; injection H as <-; intros _;
     split; apply Qle_bool_imp_le; vm_compute; reflexivity|].
  destruct (String.eqb value "1000");
    [intro H; injection H as <-; intros _;
     split; apply Qle_bool_imp_le; vm_compute; reflexivity|].
  destruct (String.eqb value "2");
    [intro H; injection H as <-; intros _;
     split; apply Qle_bool_imp_le; vm_compute; reflexivity|].
  destruct (String.eqb value "-3");
    [intro H; injection H as <-; intro Hpos; exfalso; revert Hpos;
     vm_compute; discriminate|].
  discriminate.
Defined.


(** X6: with no warehouse and no orders the breakdown still returns, and
    it is all zeros: every cost line of both parties, both overheads, both
    totals, the monthly and yearly savings and the savings percentage, and
    the savings and the percentage of every row of the detailed analysis,
    whatever the items per order. *)
Theorem no_volume_costs_nothing (pkg : PackageType) (input : MerchantInput.t Q) :
  MerchantInput.warehouseSize input == 0 ->
  MerchantInput.ordersPerMonth input == 0 ->
  exists b,
    ServiceBreakdown pkg input = Returned b
    /\ let r := Breakdown.results b in
       let m := CostComparisonResult.merchantCost r in
       let c := CostComparisonResult.rootsCost r in
       let v := CostComparisonResult.savings r in
       (forall s, Cost.line m s == 0 /\ Cost.line c s == 0)
       /\ Cost.overhead m == 0 /\ Cost.overhead c == 0
       /\ Cost.total m == 0 /\ Cost.total c == 0
       /\ Savings.monthly v == 0 /\ Savings.yearly v == 0
       /\ Savings.percentage v == 0
       /\ Forall (fun row =>
                    DetailRow.savings row == 0
                    /\ DetailRow.savingsPercentage row == 0) (Breakdown.rows b).
Proof.
  intros Hw Ho.
  destruct (ServiceBreakdown_returns pkg input) as (r & rows & Hr & Hrows & Hb).
  eexists. split; [exact Hb|]. cbn [Breakdown.results Breakdown.rows]. cbv zeta.
  pose proof (calculateSavings_inv _ _ Hr) as H. cbv zeta in H.
  destruct H as (Hm & Hc & Hmo & Hmt & Hco & Hct & Hsm & Hsy & Hpc & Hp0 & Hpq).
  rewrite (chartData_follows_services pkg r Hpc) in Hrows.
  lines Hm. lines Hc. apply eq_Qeq in Hmo, Hmt, Hco, Hct, Hsm, Hsy.
  unfold Spec.partyCost, Spec.merchantCost, Spec.alternateCost, Spec.totalItems in *.
  assert (Ht : (MerchantInput.ordersPerMonth input
                * MerchantInput.averageItemsPerOrder input)%js == 0).
  { cbn. rewrite Ho. ring. }
  set (t := (MerchantInput.ordersPerMonth input
             * MerchantInput.averageItemsPerOrder input)%js) in *.
  clearbody t.
  assert (Hlines : forall s,
            Cost.line (CostComparisonResult.merchantCost r) s == 0
            /\ Cost.line (CostComparisonResult.rootsCost r) s == 0).
  { intro s. destruct pkg, s; cbn in *; split; lra. }
  assert (Htotal : Cost.total (CostComparisonResult.merchantCost r) == 0).
  { destruct pkg; cbn in *; lra. }
  split; [exact Hlines|].
  split; [destruct pkg; cbn in *; lra|].
  split; [destruct pkg; cbn in *; lra|].
  split; [exact Htotal|].
  split; [destruct pkg; cbn in *; lra|].
  split; [destruct pkg; cbn in *; lra|].
  split; [destruct pkg; cbn in *; lra|].
  split.
  { cbn in Hp0. rewrite Hp0; [reflexivity|].
    apply Qgt_bool_false_iff. rewrite Htotal. apply Qle_refl. }
  clear - Hrows Hlines.
  destruct pkg; cbn [PACKAGE_SERVICES PackageConfig.services map mapM] in Hrows |- *;
    step_rows Hrows;
    repeat (apply Forall_cons || apply Forall_nil); cbv beta;
    match goal with
    | E : detailRow ?i = Returned ?row |- context [DetailRow.savingsPercentage ?row] =>
        apply (detailRow_nothing _ E);
          [exact (proj1 (Hlines _)) | exact (proj2 (Hlines _))]
    end.
Qed.

Lemma no_volume_costs_nothing_witness :
  MerchantInput.warehouseSize (num:=Q) (mkInput 0 0 2) == 0
  /\ MerchantInput.ordersPerMonth (num:=Q) (mkInput 0 0 2) == 0
  /\ exists b,
       ServiceBreakdown (num:=Q) fulfillment (mkInput 0 0 2) = Returned b
       /\ Cost.total (CostComparisonResult.merchantCost (Breakdown.results b)) == 0
       /\ Savings.percentage (CostComparisonResult.savings (Breakdown.results b)) == 0
       /\ Forall (fun row =>
                    DetailRow.savings row == 0
                    /\ DetailRow.savingsPercentage row == 0) (Breakdown.rows b).
Proof.
  assert (Hw : MerchantInput.warehouseSize (num:=Q) (mkInput 0 0 2) == 0) by reflexivity.
  assert (Ho : MerchantInput.ordersPerMonth (num:=Q) (mkInput 0 0 2) == 0) by reflexivity.
  do 2 (split; [assumption|]).
  destruct (no_volume_costs_nothing fulfillment (mkInput 0 0 2) Hw Ho)
    as (b & Hb & _ & _ & _ & Htotal & _ & _ & _ & Hpct & Hrows).
  exists b. split; [exact Hb|]. split; [exact Htotal|]. split; [exact Hpct | exact Hrows].
Defined.

End BreakdownExact.

(** Inside the range the doubles agree with the two statements above, on
    the 4913 inputs made of [probeVolumes] and for every package. *)
Lemma breakdown_binary64_probes :
  forallb (fun input => forallb (breakdownHoldsAt input) allPackages)
          (probeInputs probeVolumes) = true.
Proof. vm_compute. reflexivity. Qed.

(** ** The report *)

Ltac not_sixteen :=
  let H := fresh in intro H; vm_compute in H; discriminate H.

Section ReportExact.

Local Open Scope Q_scope.

Variable env : ReportEnv.t Q.

Variable titleLines : nat.

Hypothesis title_wraps :
  forall doc text width,
    currentFontSize doc == 16 ->
    length (ReportEnv.splitTextToSize env doc text width) = titleLines.

Hypothesis others_fit :
  forall doc text width,
    ~ currentFontSize doc == 16 ->
    length (ReportEnv.splitTextToSize env doc text width) = 1%nat.

Lemma currentFontSize_set (doc : list (Pdf.op Q)) (size : Q)
    (fontName fontStyle : string) :
  currentFontSize
    ((doc ++ [Pdf.SetFontSize size]) ++ [Pdf.SetFont fontName fontStyle]) = size.
Proof. unfold currentFontSize. rewrite !fold_left_app. reflexivity. Qed.

Lemma lineCount_at_least_one (n : nat) : (1 <= n)%nat -> 1 <= inject_Z (Z.of_nat n).
Proof. intro H. unfold Qle. cbn. lia. Qed.

Lemma roomLeft_less (room room' : Q) (st : Layout.t Q) :
  roomLeft env room st -> room' <= room -> roomLeft env room' st.
Proof.
  intros (Hdoc & Hlo & Hhi) Hle.
  split; [exact Hdoc | split; [exact Hlo | lra]].
Qed.

Lemma write_roomLeft_lines (n : nat) (room : Q) (text : string) (fontSize : Q)
    (isBold : bool) (st : Layout.t Q) :
  (forall doc width,
     currentFontSize doc = fontSize ->
     length (ReportEnv.splitTextToSize env doc text width) = n) ->
  (1 <= n)%nat ->
  roomLeft env room st ->
  6 + 7 * (inject_Z (Z.of_nat n) - 1) <= room ->
  roomLeft env (room - 7 * inject_Z (Z.of_nat n))
    (write env text fontSize isBold st).
Proof.
  intros Hn Hpos (Hdoc & Hlo & Hhi) Hroom.
  apply lineCount_at_least_one in Hpos.
  unfold write, addText, roomLeft. cbn.
  rewrite (Hn _ _ (currentFontSize_set _ _ _ _)).
  split; [|split].
  - intros lines x y Hin.
    rewrite !in_app_iff in Hin. cbn [In] in Hin.
    destruct Hin as [[[Hin | [Hin | []]] | [Hin | []]] | [Hin | []]];
      try discriminate Hin.
    + exact (Hdoc _ _ _ Hin).
    + injection Hin as <- <- <-. unfold margin, lineCount. cbn [lit Number_Q].
      rewrite (Hn _ _ (currentFontSize_set _ _ _ _)).
      set (count := inject_Z (Z.of_nat n)) in *. clearbody count.
      split; [reflexivity | split; lra].
  - unfold lineHeight. cbn [lit Number_Q].
    set (count := inject_Z (Z.of_nat n)) in *. clearbody count. lra.
  - unfold lineHeight. cbn [lit Number_Q].
    set (count := inject_Z (Z.of_nat n)) in *. clearbody count. lra.
Qed.

Lemma write_roomLeft (room : Q) (text : string) (fontSize : Q) (isBold : bool)
    (st : Layout.t Q) :
  ~ fontSize == 16 ->
  roomLeft env room st -> 6 <= room ->
  roomLeft env (room - 7) (write env text fontSize isBold st).
Proof.
  intros Hsize Hst Hroom.
  apply (roomLeft_less (room := room - 7 * inject_Z (Z.of_nat 1))).
  - apply (@write_roomLeft_lines 1%nat room text fontSize isBold st).
    + intros doc width E. apply others_fit. rewrite E. exact Hsize.
    + constructor.
    + exact Hst.
    + unfold inject_Z. cbn. lra.
  - unfold inject_Z. cbn. lra.
Qed.

Lemma write_title_roomLeft (room : Q) (text : string) (isBold : bool)
    (st : Layout.t Q) :
  (1 <= titleLines)%nat ->
  roomLeft env room st ->
  6 + 7 * (inject_Z (Z.of_nat titleLines) - 1) <= room ->
  roomLeft env (room - 7 * inject_Z (Z.of_nat titleLines))
    (write env text 16 isBold st).
Proof.
  intros Hpos Hst Hroom.
  apply (@write_roomLeft_lines titleLines room text 16 isBold st).
  - intros doc width E. apply title_wraps. rewrite E. reflexivity.
  - exact Hpos.
  - exact Hst.
  - exact Hroom.
Qed.

Lemma down_roomLeft (room d : Q) (st : Layout.t Q) :
  roomLeft env room st -> 0 <= d -> roomLeft env (room - d) (down d st).
Proof.
  intros (Hdoc & Hlo & Hhi) Hd. unfold down, roomLeft. cbn.
  split; [exact Hdoc | split; lra].
Qed.

Lemma newPageIfBelow_roomLeft (room reserve : Q) (st : Layout.t Q) :
  roomLeft env room st -> 20 + reserve <= ReportEnv.pageHeight env ->
  roomLeft env reserve (newPageIfBelow env reserve st).
Proof.
  intros (Hdoc & Hlo & Hhi) Htall. unfold newPageIfBelow. cbn.
  destruct (Qgt_bool (Layout.yPosition st) (ReportEnv.pageHeight env - reserve)) eqn:G.
  - unfold roomLeft. cbn. split; [|split; lra].
    intros lines x y Hin. rewrite in_app_iff in Hin. cbn [In] in Hin.
    destruct Hin as [Hin | [Hin | []]]; [exact (Hdoc _ _ _ Hin) | discriminate Hin].
  - apply Qgt_bool_false_iff in G.
    split; [exact Hdoc | split; assumption].
Qed.

Lemma serviceSection_roomLeft (room : Q) (heading : string) (merchant roots : Q)
    (st : Layout.t Q) :
  roomLeft env room st -> 48 <= room ->
  exists st',
    serviceSection env heading merchant roots st = Returned st'
    /\ roomLeft env (room - 52) st'.
Proof.
  intros Hst Hroom. unfold serviceSection.
  assert (Hpct : exists savingsPct,
            (if gt merchant (lit 0)
             then bind (div (sub merchant roots) merchant)
                    (fun q => ret (ReportEnv.toFixed_1 env (mul q (lit 100))))
             else ret "0.0"%string) = Returned savingsPct).
  { destruct (gt merchant (lit 0)) eqn:G.
    - destruct (div_guarded (sub merchant roots) merchant G) as [q ->].
      eexists. reflexivity.
    - eexists. reflexivity. }
  destruct Hpct as [savingsPct ->]. cbn [bind]. cbv zeta.
  eexists. split; [reflexivity|].
  unfold lineHeight. cbn [lit Number_Q].
  eapply roomLeft_less.
  - apply down_roomLeft; [|lra].
    apply write_roomLeft; [not_sixteen | | shelve].
    apply down_roomLeft; [|lra].
    apply write_roomLeft; [not_sixteen | | shelve].
    apply down_roomLeft; [|lra].
    apply write_roomLeft; [not_sixteen | | shelve].
    apply down_roomLeft; [|lra].
    apply write_roomLeft; [not_sixteen | exact Hst | shelve].
  - lra.
  Unshelve. all: lra.
Qed.

Lemma first_block_roomLeft (room : Q) (included : bool) (heading : string)
    (merchant roots : Q) (st : Layout.t Q) :
  roomLeft env room st -> 48 <= room ->
  exists st',
    (if included then serviceSection env heading merchant roots st else ret st)
      = Returned st'
    /\ roomLeft env (room - 52) st'.
Proof.
  intros Hst Hroom. destruct included.
  - apply serviceSection_roomLeft; assumption.
  - exists st. split; [reflexivity|]. apply (roomLeft_less Hst). lra.
Qed.

Lemma later_block_roomLeft (room : Q) (included : bool) (heading : string)
    (merchant roots : Q) (st : Layout.t Q) :
  roomLeft env room st -> 70 <= ReportEnv.pageHeight env ->
  exists st' room',
    (if included
     then serviceSection env heading merchant roots (newPageIfBelow env 50 st)
     else ret st) = Returned st'
    /\ roomLeft env room' st'.
Proof.
  intros Hst Htall. destruct included.
  - destruct (serviceSection_roomLeft (room := 50) heading merchant roots
                (st := newPageIfBelow env 50 st)) as (st' & E & Hst').
    + apply (newPageIfBelow_roomLeft Hst). lra.
    + lra.
    + exists st', (50 - 52). split; assumption.
  - exists st, room. split; [reflexivity | exact Hst].
Qed.

Ltac layout_step :=
  match goal with
  | H : roomLeft env ?b ?st
    |- context [bind (if ?c then serviceSection env ?h ?m ?r (newPageIfBelow env ?res ?st)
                      else ret ?st) _] =>
      let st' := fresh "st" in
      let b' := fresh "room" in
      let E := fresh "E" in
      let R := fresh "R" in
      destruct (later_block_roomLeft c h m r H ltac:(lra)) as (st' & b' & E & R);
      rewrite E; cbn [bind]; clear E H
  | H : roomLeft env ?b ?st
    |- context [bind (if ?c then serviceSection env ?h ?m ?r ?st else ret ?st) _] =>
      let st' := fresh "st" in
      let E := fresh "E" in
      let R := fresh "R" in
      destruct (first_block_roomLeft c h m r H ltac:(lra)) as (st' & E & R);
      rewrite E; cbn [bind]; clear E H
  | H : roomLeft env ?b ?st |- context [write env ?t ?s ?bo ?st] =>
      let R := fresh "R" in
      pose proof (@write_roomLeft b t s bo st ltac:(not_sixteen) H ltac:(lra)) as R;
      clear H; generalize dependent (write env t s bo st); intros
  | H : roomLeft env ?b ?st |- context [down ?d ?st] =>
      let R := fresh "R" in
      pose proof (down_roomLeft (d := d) H ltac:(lra)) as R;
      clear H; generalize dependent (down d st); intros
  | H : roomLeft env ?b ?st |- context [newPageIfBelow env ?res ?st] =>
      let R := fresh "R" in
      pose proof (newPageIfBelow_roomLeft (reserve := res) H ltac:(lra)) as R;
      clear H; generalize dependent (newPageIfBelow env res st); intros
  end.


End ReportExact.

